(** * Verification of the [retry] package (github.com/alfzs/retry)

    A shallow embedding of the retry executor [WithRetry], of its default
    error classifier [shouldRetryError], of the terminal error [RetryError]
    and of [HTTPError], followed by the properties proved about them.
    The executor followed is the one with the [ShouldRetry] policy field;
    [retry.go] holds the same loop without the classifier test.

    Conventions of the embedding.
    - Go's [int] and [time.Duration] are [Z]; the loop counter runs from 1 to
      [MaxAttempts] and never wraps, so no modular arithmetic is involved.
    - A value of Go's interface type [error] is an [option error]: [None] is
      the nil interface, [Some e] a non-nil error value [e], one that holds
      no nil pointer.  A non-nil interface that holds a nil pointer is a
      value of [iface], on which method calls can panic.
    - The operation callback, the logger and the context are effects: the
      number of invocations and the emitted log records are threaded through
      the loop in an explicit [world]; what the [select] of the inter-attempt
      wait picks is read from the [Context]. *)

From Stdlib Require Import ZArith List String Ascii Bool Lia DecimalString.
Import ListNotations.

Open Scope string_scope.
Open Scope Z_scope.

Set Warnings "-register-all".

(* ===================================================================== *)
(** ** Data: [HTTPError] and the error values the classifier inspects   *)
(* ===================================================================== *)

(** [type HTTPError struct { StatusCode int; Message string }] *)
Record HTTPError : Type := mkHTTPError {
  StatusCode : Z;
  Message : string
}.

(** The error values of the model.  Go's error universe is open; this sum
    closes it over the kinds [shouldRetryError] tells apart:
    the two context sentinels, [errors.New] values, [fmt.Errorf] wrappers
    (verb [%w]), an implementation of [net.Error] that has no [Unwrap],
    [Is] or [As] method ([net.UnknownNetworkError], a type of the caller),
    [*net.OpError], [*url.Error], this package's [*HTTPError] and
    [*RetryError], and the timeout errors of the packages [net] and
    [net/http] (both named [timeoutError]), whose [Is] method matches
    [context.DeadlineExceeded]. *)
Inductive error : Type :=
| context_Canceled
| context_DeadlineExceeded
| errorString (s : string)
| wrapError (msg : string) (err : error)
| net_Error (msg : string) (timeout temporary : bool)
| net_OpError (Op Net : string) (Err : error)
| url_Error (Op URL : string) (Err : error)
| ptr_HTTPError (e : HTTPError)
| ptr_RetryError (Operation : string) (Attempts : Z) (LastError : option error)
| timeoutError (msg : string).

(** [func (e *HTTPError) Timeout() bool] *)
Definition HTTPError_Timeout (e : HTTPError) : bool :=
  StatusCode e =? 408.

(** [func (e *HTTPError) Temporary() bool] *)
Definition HTTPError_Temporary (e : HTTPError) : bool :=
  (StatusCode e >=? 500) || (StatusCode e =? 429).

(** [func (e *RetryError) Unwrap() error], together with the [Unwrap]
    methods of the library wrappers. *)
Definition Unwrap (e : error) : option error :=
  match e with
  | wrapError _ err => Some err
  | net_OpError _ _ err => Some err
  | url_Error _ _ err => Some err
  | ptr_RetryError _ _ last => last
  | _ => None
  end.

(** The [Timeout() bool] method, for the error kinds that have one
    ([None]: the dynamic type has no such method).  [*net.OpError] and
    [*url.Error] forward to the error they hold when it has the method.
    Every kind with [Timeout] here also has [Temporary] and [Error], so
    these are exactly the values satisfying the interface [net.Error]. *)
Fixpoint Timeout (e : error) : option bool :=
  match e with
  | context_DeadlineExceeded => Some true
  | net_Error _ timeout _ => Some timeout
  | net_OpError _ _ err =>
      Some (match Timeout err with Some t => t | None => false end)
  | url_Error _ _ err =>
      Some (match Timeout err with Some t => t | None => false end)
  | ptr_HTTPError h => Some (HTTPError_Timeout h)
  | timeoutError _ => Some true
  | _ => None
  end.

Module errors.

(** The chain [err, Unwrap(err), Unwrap(Unwrap(err)), ...] that
    [errors.Is] and [errors.As] walk. *)
Fixpoint chain (err : error) : list error :=
  err ::
  match err with
  | wrapError _ e => chain e
  | net_OpError _ _ e => chain e
  | url_Error _ _ e => chain e
  | ptr_RetryError _ _ (Some e) => chain e
  | _ => []
  end.

(** The targets [errors.Is] is called with in this package. *)
Inductive sentinel : Type := Canceled | DeadlineExceeded.

(** [err == target] for a sentinel target: identity with the package
    level value of [context]. *)
Definition same (err : error) (target : sentinel) : bool :=
  match err, target with
  | context_Canceled, Canceled => true
  | context_DeadlineExceeded, DeadlineExceeded => true
  | _, _ => false
  end.

(** The [Is(target error) bool] method, for the kinds that have one:
    [func (e *timeoutError) Is(err error) bool] returns
    [err == context.DeadlineExceeded]. *)
Definition Is_method (err : error) (target : sentinel) : bool :=
  match err, target with
  | timeoutError _, DeadlineExceeded => true
  | _, _ => false
  end.

(** [errors.Is(err, target)]: along the chain, a value matches when it
    is the target or when its [Is] method says so. *)
Definition Is (err : error) (target : sentinel) : bool :=
  existsb (fun e => same e target || Is_method e target) (chain err).

(** [errors.As(err, &netErr)] with [var netErr net.Error]: the first
    value of the chain that implements the interface. *)
Definition As_net_Error (err : error) : option error :=
  find (fun e => match Timeout e with Some _ => true | None => false end)
       (chain err).

(** [errors.As(err, &opErr)] with [var opErr *net.OpError]. *)
Definition As_net_OpError (err : error) : option error :=
  find (fun e => match e with net_OpError _ _ _ => true | _ => false end)
       (chain err).

(** [errors.As(err, &urlErr)] with [var urlErr *url.Error]. *)
Definition As_url_Error (err : error) : option error :=
  find (fun e => match e with url_Error _ _ _ => true | _ => false end)
       (chain err).

(** [errors.As(err, &httpErr)] with [var httpErr *HTTPError]. *)
Fixpoint first_HTTPError (l : list error) : option HTTPError :=
  match l with
  | [] => None
  | ptr_HTTPError h :: _ => Some h
  | _ :: l' => first_HTTPError l'
  end.

Definition As_HTTPError (err : error) : option HTTPError :=
  first_HTTPError (chain err).

End errors.

(* ===================================================================== *)
(** ** The default classifier                                            *)
(* ===================================================================== *)

(** [func shouldRetryError(err error) bool] *)
Definition shouldRetryError (err : option error) : bool :=
  match err with
  | None => false
  | Some err =>
      if errors.Is err errors.Canceled || errors.Is err errors.DeadlineExceeded
      then false
      else
        if match errors.As_net_Error err with
           | Some netErr =>
               match Timeout netErr with Some t => t | None => false end
           | None => false
           end
        then true
        else
          match errors.As_net_OpError err with
          | Some _ => true
          | None =>
              match errors.As_url_Error err with
              | Some _ => true
              | None =>
                  match errors.As_HTTPError err with
                  | Some httpErr => HTTPError_Temporary httpErr
                  | None => false
                  end
              end
          end
  end.

(* ===================================================================== *)
(** ** Rendering: [fmt.Sprintf] and the [Error] methods                  *)
(* ===================================================================== *)

Module fmt.

(** The operands the package passes to [fmt.Sprintf].  An [error]
    operand is represented by what its [Error] method returns ([None]:
    the nil interface). *)
Inductive operand : Type :=
| String_ (s : string)
| Int_ (n : Z)
| Error_ (rendered : option string).

(** [strconv.Itoa]: decimal digits, with a leading minus sign. *)
Definition Itoa (n : Z) : string := NilZero.string_of_int (Z.to_int n).

(** One verb applied to one operand.  [None] outside the modelled
    fragment: the verbs [%s], [%d], [%v] on an operand they accept. *)
Definition formatOperand (verb : ascii) (a : operand) : option string :=
  match a with
  | String_ s =>
      if Ascii.eqb verb "s" || Ascii.eqb verb "v" then Some s else None
  | Int_ n =>
      if Ascii.eqb verb "d" || Ascii.eqb verb "v" then Some (Itoa n)
      else None
  | Error_ (Some r) =>
      if Ascii.eqb verb "s" || Ascii.eqb verb "v" then Some r else None
  | Error_ None =>
      if Ascii.eqb verb "v" then Some "<nil>" else None
  end.

(** [fmt.Sprintf(format, a...)] for formats without flags, width or
    precision.  Text is copied, [%%] is a percent sign, every other
    [%c] consumes one operand; a missing or left-over operand is
    outside the fragment. *)
Fixpoint Sprintf (format : string) (a : list operand) : option string :=
  match format with
  | EmptyString => match a with [] => Some EmptyString | _ => None end
  | String c EmptyString =>
      if Ascii.eqb c "%" then None
      else match a with [] => Some (String c EmptyString) | _ => None end
  | String c (String verb rest as tail) =>
      if Ascii.eqb c "%" then
        if Ascii.eqb verb "%" then option_map (String "%") (Sprintf rest a)
        else
          match a with
          | [] => None
          | x :: a' =>
              match formatOperand verb x, Sprintf rest a' with
              | Some s, Some r => Some (s ++ r)%string
              | _, _ => None
              end
          end
      else option_map (String c) (Sprintf tail a)
  end.

(** The result of a call whose format and operands are in the fragment. *)
Definition must (o : option string) : string :=
  match o with Some s => s | None => EmptyString end.

End fmt.

(** [func (e *HTTPError) Error() string] *)
Definition HTTPError_Error (e : HTTPError) : string :=
  fmt.must (fmt.Sprintf "HTTP %d: %s"
              [fmt.Int_ (StatusCode e); fmt.String_ (Message e)]).

Section Rendering.

(** [strconv.Quote], which the [Error] method of [url.Error] applies
    to the URL through the verb [%q]; a parameter of the rendering. *)
Variable strconv_Quote : string -> string.

(** The [Error() string] method of every error kind.  The case of
    [ptr_RetryError] is [func (e *RetryError) Error() string]; the
    library kinds follow their packages ([*net.OpError] without source
    and address). *)
Fixpoint Error (e : error) : string :=
  match e with
  | context_Canceled => "context canceled"
  | context_DeadlineExceeded => "context deadline exceeded"
  | errorString s => s
  | wrapError msg _ => msg
  | net_Error msg _ _ => msg
  | net_OpError op net err =>
      (op ++ (if String.eqb net EmptyString then EmptyString else " " ++ net)
          ++ ": " ++ Error err)%string
  | url_Error op url err =>
      (op ++ " " ++ strconv_Quote url ++ ": " ++ Error err)%string
  | ptr_HTTPError h => HTTPError_Error h
  | timeoutError msg => msg
  | ptr_RetryError op n last =>
      fmt.must
        (fmt.Sprintf "operation '%s' failed after %d attempts: %v"
           [fmt.String_ op; fmt.Int_ n;
            fmt.Error_ match last with
                       | Some l => Some (Error l)
                       | None => None
                       end])
  end.

End Rendering.

(* ===================================================================== *)
(** ** Collaborators: logger, context, time                              *)
(* ===================================================================== *)

Module slog.

Inductive Level : Type := LevelInfo | LevelWarn | LevelError.

(** [slog.String], [slog.Int], [slog.Any]. *)
Inductive Attr : Type :=
| String (key value : string)
| Int (key : string) (value : Z)
| Any (key : string) (value : option error).

(** One record handed to the logger: level, message, attributes. *)
Record Entry : Type := mkEntry {
  level : Level;
  msg : string;
  attrs : list Attr
}.

(** A [*slog.Logger]; what it receives is kept in the [world]. *)
Inductive Logger : Type := mkLogger.

End slog.

Module time.
Definition Duration : Type := Z.
Definition Millisecond : Duration := 1000000.
Definition Second : Duration := 1000000000.
End time.

(** A [context.Context], as far as [WithRetry] observes it.
    [Done ctx attempt delay] tells whether the [select] of the wait that
    follows attempt [attempt] takes the case [<-ctx.Done()] rather than
    [<-time.After(delay)]; [Err ctx] is what [ctx.Err()] returns then.
    [Done] is the outcome of the [select], not the state of the channel:
    when [ctx.Done()] is closed and the timer has fired as well, either
    case can be taken. *)
Record Context : Type := mkContext {
  Done : Z -> time.Duration -> bool;
  Err : option error
}.

(** The effects of one invocation of [WithRetry]: how many times the
    operation has been called, and the records logged so far (oldest
    first). *)
Record world : Type := mkWorld {
  calls : nat;
  log : list slog.Entry
}.

(* ===================================================================== *)
(** ** The retry loop                                                    *)
(* ===================================================================== *)

Definition DefaultMaxAttempts : Z := 3.
Definition DefaultMinDelay : time.Duration := 100 * time.Millisecond.
Definition DefaultMaxDelay : time.Duration := 5 * time.Second.

(** [type RetryConfig struct] *)
Record RetryConfig : Type := mkRetryConfig {
  MaxAttempts : Z;
  MinDelay : time.Duration;
  MaxDelay : time.Duration;
  Logger : option slog.Logger;
  ShouldRetry : option (option error -> bool)
}.

(** Field updates of a [RetryConfig] (the assignments [config.F = v]). *)
Definition set_MaxAttempts (c : RetryConfig) (v : Z) : RetryConfig :=
  mkRetryConfig v (MinDelay c) (MaxDelay c) (Logger c) (ShouldRetry c).
Definition set_MinDelay (c : RetryConfig) (v : time.Duration) : RetryConfig :=
  mkRetryConfig (MaxAttempts c) v (MaxDelay c) (Logger c) (ShouldRetry c).
Definition set_MaxDelay (c : RetryConfig) (v : time.Duration) : RetryConfig :=
  mkRetryConfig (MaxAttempts c) (MinDelay c) v (Logger c) (ShouldRetry c).
Definition set_ShouldRetry (c : RetryConfig) (v : option error -> bool)
  : RetryConfig :=
  mkRetryConfig (MaxAttempts c) (MinDelay c) (MaxDelay c) (Logger c) (Some v).

(** The four [if] statements at the head of [WithRetry], applied in the
    order of the source to the function's own copy of [config]. *)
Definition setDefaults (config : RetryConfig) : RetryConfig :=
  let config :=
    if MaxAttempts config <=? 0
    then set_MaxAttempts config DefaultMaxAttempts else config in
  let config :=
    if MinDelay config <=? 0
    then set_MinDelay config DefaultMinDelay else config in
  let config :=
    if MaxDelay config <=? 0
    then set_MaxDelay config DefaultMaxDelay else config in
  match ShouldRetry config with
  | None => set_ShouldRetry config shouldRetryError
  | Some _ => config
  end.

(** The test [config.ShouldRetry != nil && !config.ShouldRetry(lastErr)]. *)
Definition nonRetriable (config : RetryConfig) (lastErr : option error)
  : bool :=
  match ShouldRetry config with
  | Some f => negb (f lastErr)
  | None => false
  end.

(** One call of the operation callback: the counter of the [world]. *)
Definition invoked (w : world) : world := mkWorld (S (calls w)) (log w).

(** [config.Logger.Info/Warn/Error(msg, attrs...)] behind the test
    [config.Logger != nil]. *)
Definition logTo (l : option slog.Logger) (lv : slog.Level) (m : string)
    (a : list slog.Attr) (w : world) : world :=
  match l with
  | Some _ => mkWorld (calls w) (log w ++ [slog.mkEntry lv m a])
  | None => w
  end.

Section Retry.

(** The result type of the operation and its zero value
    ([var result T]). *)
Variable T : Type.
Variable zero : T.

(** [backoff.CalculateExponentialBackoff(attempt, minDelay, maxDelay)]
    of the module github.com/alfzs/backoff: a parameter. *)
Variable CalculateExponentialBackoff :
  Z -> time.Duration -> time.Duration -> time.Duration.

(** [operationFn func(context.Context) (T, error)].  The callback is a
    closure with state of its own: [operationFn ctx k] is what its
    [k]-th call returns, counting from 1. *)
Definition operation : Type := Context -> nat -> T * option error.

(** What [WithRetry] returns, with the effects it had. *)
Definition outcome : Type := (T * option error) * world.

Section Loop.

Variable ctx : Context.
Variable config : RetryConfig.
Variable operationName : string.
Variable operationFn : operation.

(** The statement after the loop:
    [return result, &RetryError{operationName, config.MaxAttempts,
    lastErr}]. *)
Definition afterLoop (result : T) (lastErr : option error) (w : world)
  : option outcome :=
  Some ((result,
         Some (ptr_RetryError operationName (MaxAttempts config) lastErr)),
        w).

(** [for attempt := 1; attempt <= config.MaxAttempts; attempt++].
    [fuel] bounds the number of iterations; [None] is "out of fuel". *)
Fixpoint loop (fuel : nat) (attempt : Z) (result : T)
    (lastErr : option error) (w : world) {struct fuel} : option outcome :=
  match fuel with
  | O => None
  | S fuel' =>
      if attempt <=? MaxAttempts config then
        let '(result, lastErr) := operationFn ctx (S (calls w)) in
        let w := invoked w in
        match lastErr with
        | None =>
            let w :=
              if attempt >? 1
              then logTo (Logger config) slog.LevelInfo
                     "Operation succeeded after retry"
                     [slog.String "operation" operationName;
                      slog.Int "attempt" attempt] w
              else w in
            Some ((result, None), w)
        | Some _ =>
            if nonRetriable config lastErr then
              let w :=
                logTo (Logger config) slog.LevelWarn
                  "Retry aborted due to non-retriable error"
                  [slog.String "operation" operationName;
                   slog.Int "attempt" attempt;
                   slog.Any "error" lastErr] w in
              afterLoop result lastErr w
            else
              let w :=
                logTo (Logger config) slog.LevelError
                  "Operation failed, will retry"
                  [slog.String "operation" operationName;
                   slog.Int "attempt" attempt;
                   slog.Int "max_attempt" (MaxAttempts config);
                   slog.Any "error" lastErr] w in
              if attempt =? MaxAttempts config then
                afterLoop result lastErr w
              else
                let delay :=
                  CalculateExponentialBackoff attempt
                    (MinDelay config) (MaxDelay config) in
                if Done ctx attempt delay
                then Some ((result, Err ctx), w)
                else loop fuel' (attempt + 1) result lastErr w
        end
      else afterLoop result lastErr w
  end.

End Loop.

(** [func WithRetry[T any](ctx, config, operationName, operationFn)
    (T, error)].  The loop body runs at most [config.MaxAttempts]
    times, which is the fuel given to it. *)
Definition WithRetry (ctx : Context) (config : RetryConfig)
    (operationName : string) (operationFn : operation) : option outcome :=
  let config := setDefaults config in
  loop ctx config operationName operationFn
    (Z.to_nat (MaxAttempts config)) 1 zero None (mkWorld 0 []).

End Retry.

Arguments WithRetry {T} zero CalculateExponentialBackoff
  ctx config operationName operationFn.
Arguments loop {T} CalculateExponentialBackoff ctx config operationName
  operationFn fuel attempt result lastErr w.
Arguments afterLoop {T} config operationName result lastErr w.

(* ===================================================================== *)
(** ** Concrete contexts, policies and operations                        *)
(* ===================================================================== *)

(** [context.Background()]: never done. *)
Definition Background : Context := mkContext (fun _ _ => false) None.

(** A context cancelled before [WithRetry] is called, with delays that
    have not elapsed when a [select] runs (the default floor is 100ms):
    every [select] takes the case [<-ctx.Done()]. *)
Definition cancelledContext : Context :=
  mkContext (fun _ _ => true) (Some context_Canceled).

(** A delay calculator standing for the external one in the examples:
    the floor doubled per attempt, capped by the ceiling. *)
Definition doublingBackoff (attempt : Z) (minDelay maxDelay : time.Duration)
  : time.Duration :=
  Z.min maxDelay (minDelay * 2 ^ (attempt - 1)).

(** [RetryConfig{}] with the given attempt budget, and with a logger. *)
Definition policy (n : Z) : RetryConfig := mkRetryConfig n 0 0 None None.
Definition loggedPolicy (n : Z) : RetryConfig :=
  mkRetryConfig n 0 0 (Some slog.mkLogger) None.

(** Operations returning the same error at every call. *)
Definition alwaysFails (v : Z) (e : error) : operation Z :=
  fun _ _ => (v, Some e).

(** An operation that returns [ctx.Err()] as its own error. *)
Definition returnsCtxErr : operation Z := fun ctx _ => (0, Err ctx).

(** An operation failing with [e] on its first [k] calls, then
    succeeding with [v]. *)
Definition failsThenSucceeds (k : nat) (e : error) (v : Z) : operation Z :=
  fun _ i => if (i <=? k)%nat then (0, Some e) else (v, None).


(* ===================================================================== *)
(** ** The rows of the classifier's decision table                       *)
(* ===================================================================== *)

(** The conditions of the decision table, one per row, as tests on a
    non-nil error. *)
Definition row_cancellation (e : error) : bool :=
  errors.Is e errors.Canceled || errors.Is e errors.DeadlineExceeded.

Definition row_network_timeout (e : error) : bool :=
  match errors.As_net_Error e with
  | Some netErr => match Timeout netErr with Some t => t | None => false end
  | None => false
  end.

Definition row_network_operation (e : error) : bool :=
  match errors.As_net_OpError e with Some _ => true | None => false end.

Definition row_url (e : error) : bool :=
  match errors.As_url_Error e with Some _ => true | None => false end.


(** The classifier actually in force during an invocation: the policy's
    own, or the built-in one when the field is nil. *)
Definition classifier (config : RetryConfig) : option error -> bool :=
  match ShouldRetry config with
  | Some f => f
  | None => shouldRetryError
  end.

(** "As if the policy had been given the defaults": the policy a caller
    would write by hand, every zero or negative number replaced by its
    default and a nil classifier by the built-in one. *)
Definition policyWithDefaults (config : RetryConfig) : RetryConfig :=
  mkRetryConfig
    (if MaxAttempts config <=? 0 then 3 else MaxAttempts config)
    (if MinDelay config <=? 0 then 100 * 1000000 else MinDelay config)
    (if MaxDelay config <=? 0 then 5 * 1000000000 else MaxDelay config)
    (Logger config)
    (Some (classifier config)).

(* ===================================================================== *)
(** ** The diagnostic events                                             *)
(* ===================================================================== *)

(** The three event kinds, as the records the logger receives. *)
Definition retry_succeeded (operation : string) (attempt : Z) : slog.Entry :=
  slog.mkEntry slog.LevelInfo "Operation succeeded after retry"
    [slog.String "operation" operation; slog.Int "attempt" attempt].

Definition retry_will_retry (operation : string) (attempt maxAttempts : Z)
    (err : error) : slog.Entry :=
  slog.mkEntry slog.LevelError "Operation failed, will retry"
    [slog.String "operation" operation; slog.Int "attempt" attempt;
     slog.Int "max_attempt" maxAttempts; slog.Any "error" (Some err)].

Definition retry_aborted_non_retriable (operation : string) (attempt : Z)
    (err : error) : slog.Entry :=
  slog.mkEntry slog.LevelWarn "Retry aborted due to non-retriable error"
    [slog.String "operation" operation; slog.Int "attempt" attempt;
     slog.Any "error" (Some err)].

(** The log of an invocation that returned. *)
Definition events {T : Type} (r : option (outcome T)) : option (list slog.Entry) :=
  option_map (fun o => log (snd o)) r.

(* ===================================================================== *)
(** ** The executor of [retry.go]                                        *)
(* ===================================================================== *)

Module retry_go.

(** [type RetryConfig struct] of [retry.go]: no [ShouldRetry] field. *)
Record RetryConfig : Type := mkRetryConfig {
  MaxAttempts : Z;
  MinDelay : time.Duration;
  MaxDelay : time.Duration;
  Logger : option slog.Logger
}.

(** The three [if] statements at the head of [WithRetry]. *)
Definition setDefaults (config : RetryConfig) : RetryConfig :=
  let config :=
    if MaxAttempts config <=? 0
    then mkRetryConfig DefaultMaxAttempts (MinDelay config) (MaxDelay config)
           (Logger config)
    else config in
  let config :=
    if MinDelay config <=? 0
    then mkRetryConfig (MaxAttempts config) DefaultMinDelay (MaxDelay config)
           (Logger config)
    else config in
  if MaxDelay config <=? 0
  then mkRetryConfig (MaxAttempts config) (MinDelay config) DefaultMaxDelay
         (Logger config)
  else config.

Section Loop.

Variable T : Type.
Variable CalculateExponentialBackoff :
  Z -> time.Duration -> time.Duration -> time.Duration.
Variable ctx : Context.
Variable config : RetryConfig.
Variable operationName : string.
Variable operationFn : operation T.

(** [for attempt := 1; attempt <= config.MaxAttempts; attempt++] of
    [retry.go]: every error is logged and retried. *)
Fixpoint loop (fuel : nat) (attempt : Z) (result : T)
    (lastErr : option error) (w : world) {struct fuel}
  : option (outcome T) :=
  match fuel with
  | O => None
  | S fuel' =>
      if attempt <=? MaxAttempts config then
        let '(result, lastErr) := operationFn ctx (S (calls w)) in
        let w := invoked w in
        match lastErr with
        | None =>
            let w :=
              if attempt >? 1
              then logTo (Logger config) slog.LevelInfo
                     "Operation succeeded after retry"
                     [slog.String "operation" operationName;
                      slog.Int "attempt" attempt] w
              else w in
            Some ((result, None), w)
        | Some _ =>
            let w :=
              logTo (Logger config) slog.LevelError
                "Operation failed, will retry"
                [slog.String "operation" operationName;
                 slog.Int "attempt" attempt;
                 slog.Int "max_attempt" (MaxAttempts config);
                 slog.Any "error" lastErr] w in
            if attempt =? MaxAttempts config then
              Some ((result,
                     Some (ptr_RetryError operationName (MaxAttempts config)
                             lastErr)), w)
            else
              let delay :=
                CalculateExponentialBackoff attempt
                  (MinDelay config) (MaxDelay config) in
              if Done ctx attempt delay
              then Some ((result, Err ctx), w)
              else loop fuel' (attempt + 1) result lastErr w
        end
      else
        Some ((result,
               Some (ptr_RetryError operationName (MaxAttempts config)
                       lastErr)), w)
  end.

End Loop.

(** [func WithRetry[T any]] of [retry.go]. *)
Definition WithRetry {T : Type} (zero : T)
    (CalculateExponentialBackoff :
       Z -> time.Duration -> time.Duration -> time.Duration)
    (ctx : Context) (config : RetryConfig)
    (operationName : string) (operationFn : operation T)
  : option (outcome T) :=
  let config := setDefaults config in
  loop T CalculateExponentialBackoff ctx config operationName operationFn
    (Z.to_nat (MaxAttempts config)) 1 zero None (mkWorld 0 []).

End retry_go.

(** The policy of the classifier-aware executor that a [retry.go] policy
    corresponds to: the same numbers and logger, every error accepted. *)
Definition retryEverything (c : retry_go.RetryConfig) : RetryConfig :=
  mkRetryConfig (retry_go.MaxAttempts c) (retry_go.MinDelay c)
    (retry_go.MaxDelay c) (retry_go.Logger c) (Some (fun _ => true)).

(* ===================================================================== *)
(** ** The course of an invocation, attempt by attempt                   *)
(* ===================================================================== *)

(** Whether the loop leaves after the [k]-th call of the operation: the
    call succeeded, its error is non-retriable, it was the last attempt of
    the budget, or the wait after it was interrupted by the context. *)
Definition stopsAt {T : Type}
    (backoff : Z -> time.Duration -> time.Duration -> time.Duration)
    (ctx : Context) (config : RetryConfig) (operationFn : operation T)
    (k : nat) : bool :=
  match snd (operationFn ctx k) with
  | None => true
  | Some e =>
      nonRetriable config (Some e)
      || (Z.of_nat k =? MaxAttempts config)
      || Done ctx (Z.of_nat k)
           (backoff (Z.of_nat k) (MinDelay config) (MaxDelay config))
  end.

(** What is returned when the loop leaves after the [k]-th call. *)
Definition exitOf {T : Type} (ctx : Context) (config : RetryConfig)
    (operationName : string) (operationFn : operation T) (k : nat)
  : T * option error :=
  match operationFn ctx k with
  | (v, None) => (v, None)
  | (v, Some e) =>
      if nonRetriable config (Some e) || (Z.of_nat k =? MaxAttempts config)
      then (v, Some (ptr_RetryError operationName (MaxAttempts config)
                       (Some e)))
      else (v, Err ctx)
  end.

(** The records the [k]-th call of the operation gives rise to. *)
Definition attemptEvent {T : Type} (ctx : Context) (config : RetryConfig)
    (operationName : string) (operationFn : operation T) (k : nat)
  : list slog.Entry :=
  match Logger config with
  | None => []
  | Some _ =>
      match snd (operationFn ctx k) with
      | None =>
          if Z.of_nat k >? 1
          then [retry_succeeded operationName (Z.of_nat k)] else []
      | Some e =>
          if nonRetriable config (Some e)
          then [retry_aborted_non_retriable operationName (Z.of_nat k) e]
          else [retry_will_retry operationName (Z.of_nat k)
                  (MaxAttempts config) e]
      end
  end.

(** [fmt.Errorf] applied repeatedly: [e] under one [%w] wrapper per
    message, the first message outermost. *)
Fixpoint wrapped (msgs : list string) (e : error) : error :=
  match msgs with
  | [] => e
  | m :: msgs' => wrapError m (wrapped msgs' e)
  end.

(** An operation given by the list of what its calls return, the last
    element repeated for ever. *)
Fixpoint script (l : list (Z * option error)) (k : nat)
  : Z * option error :=
  match l, k with
  | [], _ => (0, None)
  | [x], _ => x
  | x :: _, O => x
  | x :: _, S O => x
  | _ :: l', S k' => script l' k'
  end.

Definition scripted (l : list (Z * option error)) : operation Z :=
  fun _ k => script l k.

(** A context that interrupts the wait after attempt [a] and no earlier
    one. *)
Definition cancelledDuring (a : Z) : Context :=
  mkContext (fun attempt _ => attempt =? a) (Some context_Canceled).

(* ===================================================================== *)
(** ** Interface values that hold a nil pointer                          *)
(* ===================================================================== *)


(** A call of a method with pointer receiver that reads a field of its
    receiver: [None] is the run-time panic of the nil dereference. *)
Definition call {A B : Type} (method : A -> B) (receiver : option A)
  : option B :=
  match receiver with
  | Some r => Some (method r)
  | None => None
  end.


(** A cancellation or deadline-exceeded signal: one of the two sentinels
    of [context], or a value whose [Is] method matches the deadline
    sentinel. *)
Definition isSignal (x : error) : bool :=
  match x with
  | context_Canceled | context_DeadlineExceeded | timeoutError _ => true
  | _ => false
  end.


(* ===================================================================== *)
(** ** Properties of the classifier                                      *)
(* ===================================================================== *)

Lemma shouldRetryError_rows (e : error) :
  shouldRetryError (Some e) =
  if row_cancellation e then false
  else if row_network_timeout e then true
  else if row_network_operation e then true
  else if row_url e then true
  else match errors.As_HTTPError e with
       | Some h => HTTPError_Temporary h
       | None => false
       end.
Proof.
  unfold shouldRetryError, row_cancellation, row_network_timeout,
    row_network_operation, row_url.
  destruct (errors.Is e errors.Canceled || errors.Is e errors.DeadlineExceeded);
    [reflexivity|].
  destruct (match errors.As_net_Error e with Some _ => _ | None => _ end);
    [reflexivity|].
  destruct (errors.As_net_OpError e); [reflexivity|].
  destruct (errors.As_url_Error e); reflexivity.
Qed.

(** A bare [*HTTPError] is a chain of one value, which satisfies
    [net.Error] through its own [Timeout] and [Temporary] methods. *)
Lemma shouldRetryError_bare_HTTPError (h : HTTPError) :
  shouldRetryError (Some (ptr_HTTPError h)) =
  HTTPError_Timeout h || HTTPError_Temporary h.
Proof.
  rewrite shouldRetryError_rows.
  unfold row_cancellation, row_network_timeout, row_network_operation, row_url.
  cbn.
  destruct (HTTPError_Timeout h); reflexivity.
Qed.

(** C3, as the code has it.  For an error that is or wraps an HTTP-like
    error and matches no earlier row of the decision table, the verdict is
    [Temporary()] of that HTTP-like error.  An HTTP-like error is itself a
    network error (it has the methods [Timeout] and [Temporary]), so a bare
    one is classified by [Timeout() || Temporary()], and status 408 is
    retryable through the network-timeout row. *)
Theorem shouldRetryError_http_rows :
  (forall e h,
      row_cancellation e = false ->
      row_network_timeout e = false ->
      row_network_operation e = false ->
      row_url e = false ->
      errors.As_HTTPError e = Some h ->
      shouldRetryError (Some e) = HTTPError_Temporary h) /\
  (forall h,
      shouldRetryError (Some (ptr_HTTPError h)) =
      HTTPError_Timeout h || HTTPError_Temporary h) /\
  (forall m, shouldRetryError (Some (ptr_HTTPError (mkHTTPError 408 m))) = true).
Proof.
  split; [|split].
  - intros e h Hc Hn Ho Hu Hh.
    rewrite shouldRetryError_rows, Hc, Hn, Ho, Hu, Hh. reflexivity.
  - exact shouldRetryError_bare_HTTPError.
  - intro m. rewrite shouldRetryError_bare_HTTPError. reflexivity.
Qed.

(** The first part of C3 applied to a 500 wrapped by [fmt.Errorf]. *)
Lemma shouldRetryError_http_rows_witness :
  let e := wrapError "fetch: HTTP 500: down"
             (ptr_HTTPError (mkHTTPError 500 "down")) in
  row_cancellation e = false /\
  shouldRetryError (Some e) = HTTPError_Temporary (mkHTTPError 500 "down").
Proof.
  split; [reflexivity|].
  apply (proj1 shouldRetryError_http_rows); reflexivity.
Defined.

(** C3 as stated fails: a 408 that wraps nothing and is not temporary is
    classified retryable. *)
Lemma http_408_is_retryable :
  let e := ptr_HTTPError (mkHTTPError 408 "Request Timeout") in
  errors.chain e = [e] /\
  HTTPError_Temporary (mkHTTPError 408 "Request Timeout") = false /\
  shouldRetryError (Some e) <> false.
Proof.
  repeat split; discriminate.
Qed.

(** The cancellation row holds exactly of the chains that contain a
    signal. *)
Lemma row_cancellation_isSignal (e : error) :
  row_cancellation e = existsb isSignal (errors.chain e).
Proof.
  unfold row_cancellation, errors.Is.
  induction (errors.chain e) as [|x l IH]; [reflexivity|].
  cbn [existsb]. rewrite <- IH.
  destruct x; cbn;
    repeat match goal with |- context [existsb ?f l] =>
             destruct (existsb f l) end; reflexivity.
Qed.








(* ===================================================================== *)
(** ** Properties of the failure envelope                                *)
(* ===================================================================== *)

Lemma append_empty_r (s : string) : (s ++ EmptyString)%string = s.
Proof.
  induction s as [|c s IH]; [reflexivity|].
  cbn. rewrite IH. reflexivity.
Qed.

(** [fmt.Sprintf] on the format of [RetryError.Error] stays inside the
    modelled fragment, for every operand. *)
Lemma Sprintf_RetryError_format (op : string) (n : Z) (r : option string) :
  fmt.Sprintf "operation '%s' failed after %d attempts: %v"
    [fmt.String_ op; fmt.Int_ n; fmt.Error_ r] =
  Some ("operation '" ++ op ++ "' failed after " ++ fmt.Itoa n
          ++ " attempts: "
          ++ match r with Some x => x | None => "<nil>" end)%string.
Proof.
  destruct r as [x|]; cbn; [rewrite append_empty_r|]; reflexivity.
Qed.

(** C9.  The message of a [RetryError] is
    [operation '<name>' failed after <n> attempts: <lastError>], and
    [Unwrap] yields the stored [LastError]; hence the chain walked by
    [errors.Is] and [errors.As] continues with the chain of the cause. *)
Theorem RetryError_message_and_cause (quote : string -> string)
    (op : string) (n : Z) :
  (forall last,
      Error quote (ptr_RetryError op n last) =
      ("operation '" ++ op ++ "' failed after " ++ fmt.Itoa n
         ++ " attempts: "
         ++ match last with Some l => Error quote l | None => "<nil>" end)%string)
  /\ (forall last, Unwrap (ptr_RetryError op n last) = last)
  /\ (forall l,
        errors.chain (ptr_RetryError op n (Some l)) =
        ptr_RetryError op n (Some l) :: errors.chain l)
  /\ (forall l target,
        errors.Is (ptr_RetryError op n (Some l)) target = errors.Is l target)
  /\ (forall l,
        errors.As_HTTPError (ptr_RetryError op n (Some l)) =
        errors.As_HTTPError l).
Proof.
  repeat split.
  - intro last.
    change (Error quote (ptr_RetryError op n last)) with
      (fmt.must
         (fmt.Sprintf "operation '%s' failed after %d attempts: %v"
            [fmt.String_ op; fmt.Int_ n;
             fmt.Error_ match last with
                        | Some l => Some (Error quote l)
                        | None => None
                        end])).
    rewrite Sprintf_RetryError_format.
    destruct last; reflexivity.
Qed.

(* ===================================================================== *)
(** ** Defaulting of the policy                                          *)
(* ===================================================================== *)

(** The source's four assignments compute the hand-written policy. *)
Lemma setDefaults_policyWithDefaults (config : RetryConfig) :
  setDefaults config = policyWithDefaults config.
Proof.
  destruct config as [n lo hi l f].
  unfold setDefaults, policyWithDefaults, classifier.
  destruct (n <=? 0) eqn:E1, (lo <=? 0) eqn:E2, (hi <=? 0) eqn:E3, f;
    repeat (cbn -[Z.leb Z.mul]; rewrite ?E1, ?E2, ?E3); reflexivity.
Qed.

Lemma policyWithDefaults_idempotent (config : RetryConfig) :
  policyWithDefaults (policyWithDefaults config) = policyWithDefaults config.
Proof.
  destruct config as [n lo hi l f].
  unfold policyWithDefaults, classifier; cbn.
  f_equal.
  - destruct (n <=? 0) eqn:E; [reflexivity | rewrite E; reflexivity].
  - destruct (lo <=? 0) eqn:E; [reflexivity | rewrite E; reflexivity].
  - destruct (hi <=? 0) eqn:E; [reflexivity | rewrite E; reflexivity].
Qed.

Lemma MaxAttempts_setDefaults_pos (config : RetryConfig) :
  1 <= MaxAttempts (setDefaults config).
Proof.
  rewrite setDefaults_policyWithDefaults. cbn.
  destruct (MaxAttempts config <=? 0) eqn:E; lia.
Qed.

Lemma MaxAttempts_setDefaults_keep (config : RetryConfig) :
  1 <= MaxAttempts config ->
  MaxAttempts (setDefaults config) = MaxAttempts config.
Proof.
  intro H. rewrite setDefaults_policyWithDefaults. cbn.
  destruct (MaxAttempts config <=? 0) eqn:E; lia.
Qed.

Lemma Logger_setDefaults (config : RetryConfig) :
  Logger (setDefaults config) = Logger config.
Proof. rewrite setDefaults_policyWithDefaults. reflexivity. Qed.

Lemma nonRetriable_setDefaults (config : RetryConfig) (e : option error) :
  nonRetriable (setDefaults config) e = negb (classifier config e).
Proof. rewrite setDefaults_policyWithDefaults. reflexivity. Qed.

(* ===================================================================== *)
(** ** Facts about the loop                                              *)
(* ===================================================================== *)

Lemma calls_logTo l lv m a w : calls (logTo l lv m a w) = calls w.
Proof. destruct l; reflexivity. Qed.

Lemma log_logTo l lv m a w :
  exists tail, log (logTo l lv m a w) = (log w ++ tail)%list.
Proof.
  destruct l; cbn.
  - eexists. reflexivity.
  - exists []. rewrite app_nil_r. reflexivity.
Qed.

Section LoopFacts.

Variable T : Type.
Variable CalculateExponentialBackoff :
  Z -> time.Duration -> time.Duration -> time.Duration.
Variable ctx : Context.
Variable config : RetryConfig.
Variable operationName : string.
Variable operationFn : operation T.

Let run := loop CalculateExponentialBackoff ctx config operationName operationFn.
Let delay (attempt : Z) : time.Duration :=
  CalculateExponentialBackoff attempt (MinDelay config) (MaxDelay config).

(** The loop returns when it has fuel for the attempts that remain. *)
Lemma loop_returns (fuel : nat) :
  forall attempt result lastErr w,
    attempt <= MaxAttempts config ->
    (Z.to_nat (MaxAttempts config - attempt + 1) <= fuel)%nat ->
    exists r, run fuel attempt result lastErr w = Some r.
Proof.
  induction fuel as [|fuel IH]; intros attempt result lastErr w Hle Hfuel.
  - lia.
  - cbn [run loop].
    destruct (attempt <=? MaxAttempts config) eqn:Hc;
      [|apply Z.leb_gt in Hc; lia].
    destruct (operationFn ctx (S (calls w))) as [res [e|]].
    + destruct (nonRetriable config (Some e)); [eexists; reflexivity|].
      destruct (attempt =? MaxAttempts config) eqn:Hm; [eexists; reflexivity|].
      destruct (Done ctx attempt _); [eexists; reflexivity|].
      apply Z.eqb_neq in Hm.
      apply IH; lia.
    + eexists; reflexivity.
Qed.

(** Every exit of the loop, described by the last call of the operation:
    the value returned is the one of that call; the error is nil when the
    call succeeded, [ctx.Err()] when a wait was interrupted, and otherwise
    a [RetryError] around the error of that call. *)
Lemma loop_exit (fuel : nat) :
  forall attempt result lastErr w v err w',
    run fuel attempt result lastErr w = Some ((v, err), w') ->
    attempt <= MaxAttempts config ->
    (calls w < calls w')%nat /\
    exists oe,
      operationFn ctx (calls w') = (v, oe) /\
      ((oe = None /\ err = None) \/
       (exists e a,
           oe = Some e /\ attempt <= a < MaxAttempts config /\
           Done ctx a (delay a) = true /\ err = Err ctx) \/
       (exists e,
           oe = Some e /\
           err = Some (ptr_RetryError operationName (MaxAttempts config)
                         (Some e)))).
Proof.
  induction fuel as [|fuel IH];
    intros attempt result lastErr w v err w' Hrun Hle; [discriminate|].
  cbn [run loop] in Hrun.
  destruct (attempt <=? MaxAttempts config) eqn:Hc;
    [|apply Z.leb_gt in Hc; lia].
  destruct (operationFn ctx (S (calls w))) as [res [e|]] eqn:Hop.
  - destruct (nonRetriable config (Some e)).
    { injection Hrun as <- <- <-. rewrite calls_logTo. cbn.
      split; [lia|]. exists (Some e). split; [exact Hop|].
      right; right. exists e. split; reflexivity. }
    destruct (attempt =? MaxAttempts config) eqn:Hm.
    { injection Hrun as <- <- <-. rewrite calls_logTo. cbn.
      split; [lia|]. exists (Some e). split; [exact Hop|].
      right; right. exists e. split; reflexivity. }
    apply Z.eqb_neq in Hm.
    destruct (Done ctx attempt _) eqn:Hd.
    { injection Hrun as <- <- <-. rewrite calls_logTo. cbn.
      split; [lia|]. exists (Some e). split; [exact Hop|].
      right; left. exists e, attempt. repeat split; try lia. exact Hd. }
    apply IH in Hrun; [|lia].
    rewrite calls_logTo in Hrun. cbn in Hrun.
    destruct Hrun as [Hcalls [oe [Hoe Hshape]]].
    split; [lia|]. exists oe. split; [exact Hoe|].
    destruct Hshape as [H|[(e' & a & H1 & H2 & H3 & H4)|H]].
    + left; exact H.
    + right; left. exists e', a. repeat split; try assumption; lia.
    + right; right. exact H.
  - injection Hrun as <- <- <-.
    assert (Hcalls : calls (if attempt >? 1
                            then logTo (Logger config) slog.LevelInfo
                                   "Operation succeeded after retry"
                                   [slog.String "operation" operationName;
                                    slog.Int "attempt" attempt] (invoked w)
                            else invoked w) = S (calls w)).
    { destruct (attempt >? 1); [rewrite calls_logTo|]; reflexivity. }
    rewrite Hcalls. split; [lia|].
    exists None. split; [exact Hop|]. left. split; reflexivity.
Qed.

Ltac log_tail :=
  match goal with
  | |- exists tail, log (logTo ?l ?lv ?m ?a ?w0) = _ =>
      let t := fresh "t" in
      let Ht := fresh "Ht" in
      destruct (log_logTo l lv m a w0) as [t Ht];
      exists t; rewrite Ht; reflexivity
  end.

(** The loop only appends to the log. *)
Lemma loop_log_prefix (fuel : nat) :
  forall attempt result lastErr w r w',
    run fuel attempt result lastErr w = Some (r, w') ->
    exists tail, log w' = (log w ++ tail)%list.
Proof.
  induction fuel as [|fuel IH];
    intros attempt result lastErr w r w' Hrun; [discriminate|].
  cbn [run loop] in Hrun.
  destruct (attempt <=? MaxAttempts config).
  2: { injection Hrun as _ <-. exists []. rewrite app_nil_r. reflexivity. }
  destruct (operationFn ctx (S (calls w))) as [res [e|]].
  - destruct (nonRetriable config (Some e)).
    { injection Hrun as _ <-. log_tail. }
    destruct (attempt =? MaxAttempts config).
    { injection Hrun as _ <-. log_tail. }
    destruct (Done ctx attempt _).
    { injection Hrun as _ <-. log_tail. }
    apply IH in Hrun. destruct Hrun as [tail Htail].
    match type of Htail with
    | log w' = (log (logTo ?l ?lv ?m ?a ?w0) ++ tail)%list =>
        destruct (log_logTo l lv m a w0) as [t0 Ht0]
    end.
    rewrite Ht0 in Htail. cbn in Htail.
    exists (t0 ++ tail)%list. rewrite Htail, app_assoc. reflexivity.
  - injection Hrun as _ <-.
    destruct (attempt >? 1).
    + log_tail.
    + exists []. rewrite app_nil_r. reflexivity.
Qed.

(** A run of [j] attempts that all fail with an error the policy accepts,
    each followed by a wait that the timer wins, leads to the attempt
    [attempt + j] with exactly [j] more calls made. *)
Lemma loop_run (j : nat) :
  forall fuel attempt result lastErr w,
    attempt + Z.of_nat j <= MaxAttempts config ->
    (forall i, (i < j)%nat ->
       exists v e, operationFn ctx (S (calls w + i)) = (v, Some e) /\
                   nonRetriable config (Some e) = false) ->
    (forall i, (i < j)%nat ->
       Done ctx (attempt + Z.of_nat i) (delay (attempt + Z.of_nat i)) = false) ->
    exists result' lastErr' w',
      run (j + fuel) attempt result lastErr w =
      run fuel (attempt + Z.of_nat j) result' lastErr' w' /\
      calls w' = (calls w + j)%nat.
Proof.
  induction j as [|j IH]; intros fuel attempt result lastErr w Hle Hop Hdone.
  - exists result, lastErr, w. cbn [Nat.add Z.of_nat].
    rewrite Z.add_0_r, Nat.add_0_r. split; reflexivity.
  - cbn [Nat.add run loop].
    assert (Hc : (attempt <=? MaxAttempts config) = true)
      by (apply Z.leb_le; lia).
    rewrite Hc.
    destruct (Hop 0%nat ltac:(lia)) as (v & e & Hv & He).
    rewrite Nat.add_0_r in Hv. rewrite Hv, He.
    assert (Hm : (attempt =? MaxAttempts config) = false)
      by (apply Z.eqb_neq; lia).
    rewrite Hm.
    pose proof (Hdone 0%nat ltac:(lia)) as Hd.
    rewrite Z.add_0_r in Hd. unfold delay in Hd. rewrite Hd.
    match goal with
    | |- context [run (j + fuel) _ _ _ ?w0] =>
        destruct (IH fuel (attempt + 1) v (Some e) w0)
          as (result' & lastErr' & w' & Hrun & Hcalls)
    end.
    + lia.
    + intros i Hi. rewrite calls_logTo. cbn [invoked calls].
      destruct (Hop (S i) ltac:(lia)) as (v' & e' & Hv' & He').
      exists v', e'. split; [|exact He'].
      rewrite <- Hv'. f_equal. lia.
    + intros i Hi.
      pose proof (Hdone (S i) ltac:(lia)) as Hd'.
      replace (attempt + 1 + Z.of_nat i) with (attempt + Z.of_nat (S i))
        by lia.
      exact Hd'.
    + exists result', lastErr', w'. split.
      * rewrite Hrun.
        replace (attempt + 1 + Z.of_nat j) with (attempt + Z.of_nat (S j))
          by lia.
        reflexivity.
      * rewrite Hcalls, calls_logTo. cbn [invoked calls]. lia.
Qed.

End LoopFacts.

(* ===================================================================== *)
(** ** Facts about [WithRetry]                                           *)
(* ===================================================================== *)

Section RetryFacts.

Variable T : Type.
Variable zero : T.
Variable CalculateExponentialBackoff :
  Z -> time.Duration -> time.Duration -> time.Duration.
Variable ctx : Context.
Variable config : RetryConfig.
Variable operationName : string.
Variable operationFn : operation T.

Let call := WithRetry zero CalculateExponentialBackoff ctx config
              operationName operationFn.
Let policy' := setDefaults config.
Let delay (attempt : Z) : time.Duration :=
  CalculateExponentialBackoff attempt (MinDelay policy') (MaxDelay policy').

Lemma fuel_WithRetry :
  exists f, Z.to_nat (MaxAttempts policy') = S f.
Proof.
  pose proof (MaxAttempts_setDefaults_pos config) as H. fold policy' in H.
  exists (Z.to_nat (MaxAttempts policy' - 1)). lia.
Qed.

(** [WithRetry] returns, for every input. *)
Lemma WithRetry_returns : exists r, call = Some r.
Proof.
  unfold call, WithRetry.
  pose proof (MaxAttempts_setDefaults_pos config) as H.
  apply loop_returns; lia.
Qed.

(** The exits of [WithRetry], from [loop_exit]. *)
Lemma WithRetry_exit (v : T) (err : option error) (w : world) :
  call = Some ((v, err), w) ->
  (1 <= calls w)%nat /\
  exists oe,
    operationFn ctx (calls w) = (v, oe) /\
    ((oe = None /\ err = None) \/
     (exists e a,
         oe = Some e /\ 1 <= a < MaxAttempts policy' /\
         Done ctx a (delay a) = true /\ err = Err ctx) \/
     (exists e,
         oe = Some e /\
         err = Some (ptr_RetryError operationName (MaxAttempts policy')
                       (Some e)))).
Proof.
  intro H. unfold call, WithRetry in H.
  apply loop_exit in H; [|apply MaxAttempts_setDefaults_pos].
  cbn [calls] in H. destruct H as [Hc H]. split; [lia|exact H].
Qed.

(** A first attempt that succeeds ends the invocation. *)
Lemma WithRetry_first_success (v : T) :
  operationFn ctx 1%nat = (v, None) ->
  call = Some ((v, None), mkWorld 1 []).
Proof.
  intro Hop. unfold call, WithRetry.
  destruct fuel_WithRetry as [f Hf]. unfold policy' in Hf. rewrite Hf.
  cbn [loop calls].
  pose proof (MaxAttempts_setDefaults_pos config) as H.
  apply Z.leb_le in H. rewrite H, Hop. reflexivity.
Qed.

(** A first attempt that fails with an error the classifier rejects ends
    the invocation: one call, one "aborted" record when there is a logger,
    and a [RetryError] whose [Attempts] is the configured maximum. *)
Lemma WithRetry_first_rejected (v : T) (e : error) :
  operationFn ctx 1%nat = (v, Some e) ->
  classifier config (Some e) = false ->
  call =
  Some ((v, Some (ptr_RetryError operationName (MaxAttempts policy') (Some e))),
        mkWorld 1 match Logger config with
                  | Some _ => [retry_aborted_non_retriable operationName 1 e]
                  | None => []
                  end).
Proof.
  intros Hop Hrej. unfold call, WithRetry.
  destruct fuel_WithRetry as [f Hf]. unfold policy' in Hf. rewrite Hf.
  cbn [loop calls].
  pose proof (MaxAttempts_setDefaults_pos config) as H.
  apply Z.leb_le in H.
  rewrite H, Hop, nonRetriable_setDefaults, Hrej, Logger_setDefaults.
  cbn [negb]. unfold afterLoop, policy'.
  destruct (Logger config); reflexivity.
Qed.

(** A first attempt that fails with an error the classifier accepts is
    logged as "will retry" before anything else happens. *)
Lemma WithRetry_first_accepted (v : T) (e : error) :
  operationFn ctx 1%nat = (v, Some e) ->
  classifier config (Some e) = true ->
  exists r w tail,
    call = Some (r, w) /\
    log w =
    (match Logger config with
     | Some _ =>
         [retry_will_retry operationName 1 (MaxAttempts policy') e]
     | None => []
     end ++ tail)%list.
Proof.
  intros Hop Hacc.
  destruct WithRetry_returns as [[r w] Hr]. exists r, w.
  pose proof Hr as Hr'.
  unfold call, WithRetry in Hr.
  destruct fuel_WithRetry as [f Hf]. unfold policy' in Hf. rewrite Hf in Hr.
  cbn [loop calls] in Hr.
  pose proof (MaxAttempts_setDefaults_pos config) as H.
  apply Z.leb_le in H.
  rewrite H, Hop, nonRetriable_setDefaults, Hacc, Logger_setDefaults in Hr.
  cbn [negb] in Hr. fold policy' in Hr.
  assert (Hlog :
    log (logTo (Logger config) slog.LevelError "Operation failed, will retry"
           [slog.String "operation" operationName; slog.Int "attempt" 1;
            slog.Int "max_attempt" (MaxAttempts policy');
            slog.Any "error" (Some e)] (invoked (mkWorld 0 []))) =
    match Logger config with
    | Some _ => [retry_will_retry operationName 1 (MaxAttempts policy') e]
    | None => []
    end) by (destruct (Logger config); reflexivity).
  destruct (1 =? MaxAttempts policy').
  { injection Hr as _ <-. exists []. split; [exact Hr'|].
    rewrite Hlog, app_nil_r. reflexivity. }
  destruct (Done ctx 1 _).
  { injection Hr as _ <-. exists []. split; [exact Hr'|].
    rewrite Hlog, app_nil_r. reflexivity. }
  apply loop_log_prefix in Hr. destruct Hr as [tail Htail].
  exists tail. split; [exact Hr'|]. rewrite Htail, Hlog. reflexivity.
Qed.

(** After [j] accepted failures whose waits the timer wins, with budget
    left, the next attempt takes place. *)
Lemma WithRetry_next_attempt (j : nat) (r : T * option error) (w : world) :
  Z.of_nat j < MaxAttempts policy' ->
  (forall i, (i < j)%nat ->
     exists v e, operationFn ctx (S i) = (v, Some e) /\
                 classifier config (Some e) = true) ->
  (forall i, (i < j)%nat ->
     Done ctx (1 + Z.of_nat i) (delay (1 + Z.of_nat i)) = false) ->
  call = Some (r, w) ->
  (j < calls w)%nat.
Proof.
  intros Hj Hop Hdone Hr. unfold call, WithRetry in Hr.
  fold policy' in Hr.
  replace (Z.to_nat (MaxAttempts policy'))
    with (j + (Z.to_nat (MaxAttempts policy') - j))%nat in Hr by lia.
  destruct (loop_run T CalculateExponentialBackoff ctx policy' operationName
              operationFn j (Z.to_nat (MaxAttempts policy') - j) 1 zero None
              (mkWorld 0 [])) as (res & le & w0 & Hrun & Hcalls).
  - lia.
  - intros i Hi. destruct (Hop i Hi) as (v & e & Hv & He).
    exists v, e. split; [exact Hv|].
    unfold policy'. rewrite nonRetriable_setDefaults, He. reflexivity.
  - exact Hdone.
  - rewrite Hrun in Hr. destruct r as [v err].
    apply loop_exit in Hr; [|lia].
    cbn [calls] in Hcalls. lia.
Qed.

End RetryFacts.

(* ===================================================================== *)
(** ** The claims about [WithRetry]                                      *)
(* ===================================================================== *)

(** C1, evaluated where it fails.  With [MaxAttempts] 5 and an operation
    whose first error is an HTTP 404, which the built-in classifier
    rejects, the operation is invoked exactly once, but the [RetryError]
    returned carries [Attempts] 5, the configured maximum, and not the one
    attempt actually made. *)
Theorem nonretriable_abort_reports_configured_maximum :
  WithRetry 0 doublingBackoff Background (policy 5) "fetch"
    (alwaysFails 0 (ptr_HTTPError (mkHTTPError 404 "Not Found"))) =
  Some ((0, Some (ptr_RetryError "fetch" 5
                    (Some (ptr_HTTPError (mkHTTPError 404 "Not Found"))))),
        mkWorld 1 []).
Proof. reflexivity. Qed.

(** C2 as stated fails: an operation that returns the cancellation error
    of its context as its own error gets it back inside a [RetryError],
    not verbatim. *)
Lemma operation_cancellation_is_wrapped :
  Err cancelledContext = Some context_Canceled /\
  WithRetry 0 doublingBackoff cancelledContext (policy 3) "query"
    returnsCtxErr =
  Some ((0, Some (ptr_RetryError "query" 3 (Some context_Canceled))),
        mkWorld 1 []) /\
  Some (ptr_RetryError "query" 3 (Some context_Canceled))
    <> Err cancelledContext.
Proof.
  repeat split. discriminate.
Qed.


(** C4 as stated fails: on each of the three error exits the value that
    the operation returned with its error, here 42, is handed to the
    caller, not the zero value 0. *)
Lemma result_on_error_is_not_zero :
  let e404 := ptr_HTTPError (mkHTTPError 404 "Not Found") in
  let e503 := ptr_HTTPError (mkHTTPError 503 "busy") in
  WithRetry 0 doublingBackoff Background (policy 3) "fetch"
    (alwaysFails 42 e404) =
  Some ((42, Some (ptr_RetryError "fetch" 3 (Some e404))), mkWorld 1 []) /\
  WithRetry 0 doublingBackoff Background (policy 2) "fetch"
    (alwaysFails 42 e503) =
  Some ((42, Some (ptr_RetryError "fetch" 2 (Some e503))), mkWorld 2 []) /\
  WithRetry 0 doublingBackoff cancelledContext (policy 3) "fetch"
    (alwaysFails 42 e503) =
  Some ((42, Some context_Canceled), mkWorld 1 []) /\
  42 <> 0.
Proof.
  repeat split. discriminate.
Qed.

(** C4, as the code has it.  On every error-returning exit the result
    component is the value that the last call of the operation returned
    alongside its error; it is the zero value of [T] when the operation
    returns the zero value with every error. *)
Theorem result_on_error_is_last_attempt_value {T : Type} (zero : T)
    (backoff : Z -> time.Duration -> time.Duration -> time.Duration)
    (ctx : Context) (config : RetryConfig) (operationName : string)
    (operationFn : operation T) (v : T) (err : error) (w : world) :
  WithRetry zero backoff ctx config operationName operationFn =
    Some ((v, Some err), w) ->
  (1 <= calls w)%nat /\
  (exists e, operationFn ctx (calls w) = (v, Some e)) /\
  ((forall k x e, operationFn ctx k = (x, Some e) -> x = zero) -> v = zero).
Proof.
  intro H. apply WithRetry_exit in H.
  destruct H as [Hc [oe [Hop Hshape]]].
  assert (He : exists e, oe = Some e).
  { destruct Hshape as [[_ H]|[(e & a & H & _)|(e & H & _)]];
      [discriminate | exists e; exact H | exists e; exact H]. }
  destruct He as [e ->].
  split; [exact Hc|]. split; [exists e; exact Hop|].
  intro Hz. exact (Hz _ _ _ Hop).
Qed.

Lemma result_on_error_is_last_attempt_value_witness :
  (1 <= calls (mkWorld 1 []))%nat /\
  (exists e,
      alwaysFails 42 (ptr_HTTPError (mkHTTPError 404 "Not Found"))
        Background (calls (mkWorld 1 [])) = (42, Some e)) /\
  ((forall k x e,
       alwaysFails 42 (ptr_HTTPError (mkHTTPError 404 "Not Found"))
         Background k = (x, Some e) -> x = 0) -> 42 = 0).
Proof.
  apply (result_on_error_is_last_attempt_value 0 doublingBackoff Background
           (policy 3) "fetch"
           (alwaysFails 42 (ptr_HTTPError (mkHTTPError 404 "Not Found")))
           42
           (ptr_RetryError "fetch" 3
              (Some (ptr_HTTPError (mkHTTPError 404 "Not Found"))))
           (mkWorld 1 [])).
  reflexivity.
Defined.

(** C5.  With [MaxAttempts = n >= 1], an operation that fails on all [n]
    attempts with errors the classifier accepts, and a context that
    interrupts none of the waits, [WithRetry] calls the operation exactly
    [n] times and returns a [RetryError] whose [Attempts] is [n] and whose
    [LastError] is the error of the [n]-th call. *)
Theorem exhaustion_makes_n_attempts {T : Type} (zero : T)
    (backoff : Z -> time.Duration -> time.Duration -> time.Duration)
    (ctx : Context) (config : RetryConfig) (operationName : string)
    (operationFn : operation T) (n : Z) :
  1 <= n ->
  MaxAttempts config = n ->
  (forall k, (1 <= k <= Z.to_nat n)%nat ->
     exists v e, operationFn ctx k = (v, Some e) /\
                 classifier config (Some e) = true) ->
  (forall a d, 1 <= a < n -> Done ctx a d = false) ->
  exists v e w,
    operationFn ctx (Z.to_nat n) = (v, Some e) /\
    WithRetry zero backoff ctx config operationName operationFn =
      Some ((v, Some (ptr_RetryError operationName n (Some e))), w) /\
    calls w = Z.to_nat n.
Proof.
  intros Hn Hmax Hop Hdone.
  assert (HM : MaxAttempts (setDefaults config) = n)
    by (rewrite MaxAttempts_setDefaults_keep; lia).
  destruct (Hop (Z.to_nat n) ltac:(lia)) as (v & e & Hv & He).
  exists v, e.
  assert (Hmain :
    exists w,
      loop backoff ctx (setDefaults config) operationName operationFn
        ((Z.to_nat n - 1) + 1) 1 zero None (mkWorld 0 []) =
      Some ((v, Some (ptr_RetryError operationName n (Some e))), w) /\
      calls w = Z.to_nat n).
  { destruct (loop_run T backoff ctx (setDefaults config) operationName
                operationFn (Z.to_nat n - 1) 1 1 zero None (mkWorld 0 []))
      as (res & le & w0 & Hrun & Hcalls).
    - rewrite HM. lia.
    - intros i Hi. cbn [calls Nat.add].
      destruct (Hop (S i) ltac:(lia)) as (v' & e' & Hv' & He').
      exists v', e'. split; [exact Hv'|].
      rewrite nonRetriable_setDefaults, He'. reflexivity.
    - intros i Hi. apply Hdone. lia.
    - rewrite Hrun. cbn [calls Nat.add] in Hcalls.
      replace (1 + Z.of_nat (Z.to_nat n - 1)) with n by lia.
      cbn [loop]. rewrite HM, Z.leb_refl, Z.eqb_refl, Hcalls.
      replace (S (Z.to_nat n - 1)) with (Z.to_nat n) by lia.
      rewrite Hv, nonRetriable_setDefaults, He. cbn [negb].
      unfold afterLoop. rewrite HM.
      eexists. split; [reflexivity|].
      rewrite calls_logTo. cbn [invoked calls]. lia. }
  destruct Hmain as (w & Hw & Hc). exists w.
  split; [exact Hv|]. split; [|exact Hc].
  unfold WithRetry. rewrite HM, <- Hw. f_equal. lia.
Qed.

Lemma exhaustion_makes_n_attempts_witness :
  exists v e w,
    alwaysFails 0 (ptr_HTTPError (mkHTTPError 503 "busy")) Background
      (Z.to_nat 3) = (v, Some e) /\
    WithRetry 0 doublingBackoff Background (policy 3) "fetch"
      (alwaysFails 0 (ptr_HTTPError (mkHTTPError 503 "busy"))) =
      Some ((v, Some (ptr_RetryError "fetch" 3 (Some e))), w) /\
    calls w = Z.to_nat 3.
Proof.
  apply (exhaustion_makes_n_attempts 0 doublingBackoff Background (policy 3)
           "fetch" (alwaysFails 0 (ptr_HTTPError (mkHTTPError 503 "busy"))) 3).
  - lia.
  - reflexivity.
  - intros k _. exists 0, (ptr_HTTPError (mkHTTPError 503 "busy")).
    split; reflexivity.
  - intros a d _. reflexivity.
Defined.

(** C6 as stated fails: with a logger, a first attempt failing with a
    non-retriable error produces the "aborted" event alone, not a "will
    retry" event followed by it. *)
Lemma first_nonretriable_failure_logs_abort_only :
  let e404 := ptr_HTTPError (mkHTTPError 404 "Not Found") in
  let r := WithRetry 0 doublingBackoff Background (loggedPolicy 3) "fetch"
             (alwaysFails 0 e404) in
  events r = Some [retry_aborted_non_retriable "fetch" 1 e404] /\
  events r <> Some [retry_will_retry "fetch" 1 3 e404;
                    retry_aborted_non_retriable "fetch" 1 e404].
Proof.
  split; [reflexivity | discriminate].
Qed.

(** C6, as the code has it.  With a logger, when the first attempt fails:
    if the classifier accepts the error the loop emits a "will retry"
    event (operation name, attempt, max attempts, error) first; if the
    classifier rejects it the loop emits the "aborted, non-retriable"
    event (operation name, attempt, error) and stops, so that a
    first-attempt non-retriable failure produces exactly that one event. *)
Theorem first_failure_events {T : Type} (zero : T)
    (backoff : Z -> time.Duration -> time.Duration -> time.Duration)
    (ctx : Context) (config : RetryConfig) (operationName : string)
    (operationFn : operation T) (logger : slog.Logger) (v : T) (e : error) :
  Logger config = Some logger ->
  operationFn ctx 1%nat = (v, Some e) ->
  (classifier config (Some e) = true ->
   exists r w tail,
     WithRetry zero backoff ctx config operationName operationFn =
       Some (r, w) /\
     log w =
     retry_will_retry operationName 1 (MaxAttempts (setDefaults config)) e
       :: tail) /\
  (classifier config (Some e) = false ->
   WithRetry zero backoff ctx config operationName operationFn =
     Some ((v, Some (ptr_RetryError operationName
                       (MaxAttempts (setDefaults config)) (Some e))),
           mkWorld 1 [retry_aborted_non_retriable operationName 1 e])).
Proof.
  intros Hl Hop. split; intro Hc.
  - destruct (WithRetry_first_accepted T zero backoff ctx config operationName
                operationFn v e Hop Hc) as (r & w & tail & Hr & Hlog).
    rewrite Hl in Hlog. exists r, w, tail. split; assumption.
  - rewrite (WithRetry_first_rejected T zero backoff ctx config operationName
               operationFn v e Hop Hc).
    rewrite Hl. reflexivity.
Qed.

Lemma first_failure_events_witness :
  let e404 := ptr_HTTPError (mkHTTPError 404 "Not Found") in
  WithRetry 0 doublingBackoff Background (loggedPolicy 3) "fetch"
    (alwaysFails 0 e404) =
  Some ((0, Some (ptr_RetryError "fetch"
                    (MaxAttempts (setDefaults (loggedPolicy 3))) (Some e404))),
        mkWorld 1 [retry_aborted_non_retriable "fetch" 1 e404]).
Proof.
  apply (proj2 (first_failure_events 0 doublingBackoff Background
                  (loggedPolicy 3) "fetch"
                  (alwaysFails 0 (ptr_HTTPError (mkHTTPError 404 "Not Found")))
                  slog.mkLogger 0
                  (ptr_HTTPError (mkHTTPError 404 "Not Found"))
                  eq_refl eq_refl)).
  reflexivity.
Defined.

Lemma WithRetry_setDefaults_eq {T : Type} (zero : T)
    (backoff : Z -> time.Duration -> time.Duration -> time.Duration)
    (ctx : Context) (c1 c2 : RetryConfig) (operationName : string)
    (operationFn : operation T) :
  policyWithDefaults c1 = policyWithDefaults c2 ->
  WithRetry zero backoff ctx c1 operationName operationFn =
  WithRetry zero backoff ctx c2 operationName operationFn.
Proof.
  intro H. unfold WithRetry.
  rewrite !setDefaults_policyWithDefaults, H. reflexivity.
Qed.

(** C8.  [WithRetry] behaves as if the policy had been given the
    defaults: it is the loop run, from start to end, on the one policy in
    which every zero (or negative) number is replaced by its default, 3
    attempts, 100ms and 5s, and a nil classifier by the built-in one; so a
    call with a zero field equals the call with that field set to its
    default. *)
Theorem zero_fields_take_defaults {T : Type} (zero : T)
    (backoff : Z -> time.Duration -> time.Duration -> time.Duration)
    (ctx : Context) (config : RetryConfig) (operationName : string)
    (operationFn : operation T) :
  let run c := WithRetry zero backoff ctx c operationName operationFn in
  run config = run (policyWithDefaults config) /\
  run config =
    loop backoff ctx (policyWithDefaults config) operationName operationFn
      (Z.to_nat (MaxAttempts (policyWithDefaults config))) 1 zero None
      (mkWorld 0 []) /\
  (MaxAttempts config = 0 -> run config = run (set_MaxAttempts config 3)) /\
  (MinDelay config = 0 ->
   run config = run (set_MinDelay config (100 * time.Millisecond))) /\
  (MaxDelay config = 0 ->
   run config = run (set_MaxDelay config (5 * time.Second))) /\
  (ShouldRetry config = None ->
   run config = run (set_ShouldRetry config shouldRetryError)) /\
  (forall l,
      run (mkRetryConfig 0 0 0 l None) =
      run (mkRetryConfig 3 (100 * time.Millisecond) (5 * time.Second) l
             (Some shouldRetryError))).
Proof.
  cbv zeta. split; [|split; [|split; [|split; [|split; [|split]]]]].
  - apply WithRetry_setDefaults_eq.
    symmetry. apply policyWithDefaults_idempotent.
  - unfold WithRetry. rewrite setDefaults_policyWithDefaults. reflexivity.
  - intro H. apply WithRetry_setDefaults_eq.
    destruct config as [n lo hi l f]. cbn in H. subst n. reflexivity.
  - intro H. apply WithRetry_setDefaults_eq.
    destruct config as [n lo hi l f]. cbn in H. subst lo. reflexivity.
  - intro H. apply WithRetry_setDefaults_eq.
    destruct config as [n lo hi l f]. cbn in H. subst hi. reflexivity.
  - intro H. apply WithRetry_setDefaults_eq.
    destruct config as [n lo hi l f]. cbn in H. subst f. reflexivity.
  - intro l. apply WithRetry_setDefaults_eq. reflexivity.
Qed.

Lemma zero_fields_take_defaults_witness :
  WithRetry 0 doublingBackoff Background (policy 0) "fetch"
    (alwaysFails 0 (ptr_HTTPError (mkHTTPError 503 "busy"))) =
  WithRetry 0 doublingBackoff Background (set_MaxAttempts (policy 0) 3)
    "fetch" (alwaysFails 0 (ptr_HTTPError (mkHTTPError 503 "busy"))).
Proof.
  destruct (zero_fields_take_defaults 0 doublingBackoff Background (policy 0)
              "fetch" (alwaysFails 0 (ptr_HTTPError (mkHTTPError 503 "busy"))))
    as (_ & _ & Hmax & _).
  apply Hmax. reflexivity.
Defined.

(** C10.  Whatever the context, also one cancelled before the call, the
    operation is invoked at least once, and a first attempt that succeeds
    is returned as success after that single call; the context is
    consulted only by the inter-attempt wait: once the waits after [j]
    accepted failures have elapsed and budget remains, the next attempt
    takes place. *)
Theorem first_attempt_is_unconditional {T : Type} (zero : T)
    (backoff : Z -> time.Duration -> time.Duration -> time.Duration)
    (ctx : Context) (config : RetryConfig) (operationName : string)
    (operationFn : operation T) :
  exists r w,
    WithRetry zero backoff ctx config operationName operationFn = Some (r, w) /\
    (1 <= calls w)%nat /\
    (forall v, operationFn ctx 1%nat = (v, None) ->
               r = (v, None) /\ calls w = 1%nat) /\
    (forall j,
        Z.of_nat j < MaxAttempts (setDefaults config) ->
        (forall i, (i < j)%nat ->
           exists v e, operationFn ctx (S i) = (v, Some e) /\
                       classifier config (Some e) = true) ->
        (forall i d, (i < j)%nat -> Done ctx (1 + Z.of_nat i) d = false) ->
        (j < calls w)%nat).
Proof.
  destruct (WithRetry_returns T zero backoff ctx config operationName
              operationFn) as [[r w] Hr].
  exists r, w. split; [exact Hr|].
  split; [|split].
  - destruct r as [v err]. apply WithRetry_exit in Hr. tauto.
  - intros v Hop.
    rewrite (WithRetry_first_success T zero backoff ctx config operationName
               operationFn v Hop) in Hr.
    injection Hr as <- <-. split; reflexivity.
  - intros j Hj Hop Hdone.
    apply (WithRetry_next_attempt T zero backoff ctx config operationName
             operationFn j r w Hj Hop); [|exact Hr].
    intros i Hi. apply Hdone. exact Hi.
Qed.

(** C10 at a context cancelled before the call and an operation that
    succeeds at once. *)
Lemma first_attempt_is_unconditional_witness :
  exists r w,
    WithRetry 0 doublingBackoff cancelledContext (policy 3) "fetch"
      (failsThenSucceeds 0 context_Canceled 7) = Some (r, w) /\
    r = (7, None) /\ calls w = 1%nat.
Proof.
  destruct (first_attempt_is_unconditional 0 doublingBackoff cancelledContext
              (policy 3) "fetch" (failsThenSucceeds 0 context_Canceled 7))
    as (r & w & Hr & _ & Hsucc & _).
  exists r, w. split; [exact Hr|].
  apply Hsucc. reflexivity.
Defined.

(* ===================================================================== *)
(** ** Further properties of the classifier and of [HTTPError]           *)
(* ===================================================================== *)

(** One [fmt.Errorf] wrapper matches no row by itself. *)
Lemma shouldRetryError_wrapError (msg : string) (e : error) :
  shouldRetryError (Some (wrapError msg e)) = shouldRetryError (Some e).
Proof. reflexivity. Qed.



(** X1.  Wrapping an error with [fmt.Errorf] and [%w], any number of
    times, does not change the verdict of the built-in classifier. *)
Theorem shouldRetryError_ignores_Errorf_wrappers (msgs : list string)
    (e : error) :
  shouldRetryError (Some (wrapped msgs e)) = shouldRetryError (Some e).
Proof.
  induction msgs as [|m msgs IH]; [reflexivity|].
  cbn [wrapped]. rewrite shouldRetryError_wrapError. exact IH.
Qed.

(** X2.  The built-in classifier looks through a [RetryError]: it gives
    the envelope the verdict of its cause, and [false] when there is no
    cause; so the failure of an inner [WithRetry] is retried by an outer
    one exactly when its last error would be. *)
Theorem shouldRetryError_looks_through_RetryError (op : string) (n : Z) :
  (forall e,
      shouldRetryError (Some (ptr_RetryError op n (Some e))) =
      shouldRetryError (Some e)) /\
  shouldRetryError (Some (ptr_RetryError op n None)) = false /\
  (forall msgs e,
      shouldRetryError (Some (wrapped msgs (ptr_RetryError op n (Some e)))) =
      shouldRetryError (Some e)).
Proof.
  split; [|split].
  - intro e. reflexivity.
  - reflexivity.
  - intros msgs e. induction msgs as [|m msgs IH]; [reflexivity|].
    cbn [wrapped]. rewrite shouldRetryError_wrapError. exact IH.
Qed.


(** X4.  An [*HTTPError], bare or under [fmt.Errorf] wrappers, is
    retryable exactly for the status codes 408, 429 and 500 and above. *)
Theorem shouldRetryError_http_status (msgs : list string) (h : HTTPError) :
  shouldRetryError (Some (wrapped msgs (ptr_HTTPError h))) = true <->
  StatusCode h = 408 \/ StatusCode h = 429 \/ 500 <= StatusCode h.
Proof.
  induction msgs as [|m msgs IH].
  - cbn [wrapped]. rewrite shouldRetryError_bare_HTTPError.
    unfold HTTPError_Timeout, HTTPError_Temporary.
    rewrite !orb_true_iff, !Z.eqb_eq, Z.geb_le. tauto.
  - cbn [wrapped]. rewrite shouldRetryError_wrapError. exact IH.
Qed.


(** X6.  The message of an [HTTPError] is [HTTP <code>: <message>]. *)
Theorem HTTPError_Error_format (code : Z) (message : string) :
  HTTPError_Error (mkHTTPError code message) =
  ("HTTP " ++ fmt.Itoa code ++ ": " ++ message)%string.
Proof.
  unfold HTTPError_Error. cbn. rewrite append_empty_r. reflexivity.
Qed.

(** X7.  No status code is both a timeout and temporary, and every
    status outside 408, 429 and 500 and above is neither. *)
Theorem HTTPError_Timeout_Temporary (h : HTTPError) :
  HTTPError_Timeout h && HTTPError_Temporary h = false /\
  (HTTPError_Timeout h || HTTPError_Temporary h = false <->
   StatusCode h <> 408 /\ StatusCode h <> 429 /\ StatusCode h < 500).
Proof.
  unfold HTTPError_Timeout, HTTPError_Temporary.
  destruct (Z.eqb_spec (StatusCode h) 408) as [E1|E1];
    destruct (Z.eqb_spec (StatusCode h) 429) as [E2|E2];
    destruct (Z.geb_spec (StatusCode h) 500) as [E3|E3];
    cbn; split; try reflexivity; try lia;
    split; intro; try discriminate; try lia; try reflexivity.
Qed.

(* ===================================================================== *)
(** ** The course of the loop                                            *)
(* ===================================================================== *)

Lemma stopsAt_success {T : Type} backoff ctx config (op : operation T) k v :
  op ctx k = (v, None) -> stopsAt backoff ctx config op k = true.
Proof. intro H. unfold stopsAt. rewrite H. reflexivity. Qed.

Lemma stopsAt_failure {T : Type} backoff ctx config (op : operation T) k v e :
  op ctx k = (v, Some e) ->
  stopsAt backoff ctx config op k =
  nonRetriable config (Some e)
  || (Z.of_nat k =? MaxAttempts config)
  || Done ctx (Z.of_nat k)
       (backoff (Z.of_nat k) (MinDelay config) (MaxDelay config)).
Proof. intro H. unfold stopsAt. rewrite H. reflexivity. Qed.

Section CourseFacts.

Variable T : Type.
Variable CalculateExponentialBackoff :
  Z -> time.Duration -> time.Duration -> time.Duration.
Variable ctx : Context.
Variable config : RetryConfig.
Variable operationName : string.
Variable operationFn : operation T.

Let run := loop CalculateExponentialBackoff ctx config operationName operationFn.
Let stops := stopsAt CalculateExponentialBackoff ctx config operationFn.
Let exit := exitOf ctx config operationName operationFn.
Let event := attemptEvent ctx config operationName operationFn.

(** The loop, entered for attempt [attempt] after [attempt - 1] calls,
    leaves after the first call at which [stopsAt] holds, with the result
    [exitOf] gives for that call; the attempt budget bounds the calls. *)
Lemma loop_course (fuel : nat) :
  forall attempt result lastErr w r w',
    run fuel attempt result lastErr w = Some (r, w') ->
    attempt <= MaxAttempts config ->
    Z.of_nat (calls w) = attempt - 1 ->
    (calls w < calls w')%nat /\
    Z.of_nat (calls w') <= MaxAttempts config /\
    stops (calls w') = true /\
    (forall i, (calls w < i < calls w')%nat -> stops i = false) /\
    r = exit (calls w').
Proof.
  induction fuel as [|fuel IH];
    intros attempt result lastErr w r w' Hrun Hle Hcalls; [discriminate|].
  cbn [run loop] in Hrun.
  destruct (attempt <=? MaxAttempts config) eqn:Hc;
    [|apply Z.leb_gt in Hc; lia].
  assert (Hk : Z.of_nat (S (calls w)) = attempt) by lia.
  destruct (operationFn ctx (S (calls w))) as [res [e|]] eqn:Hop.
  - pose proof (stopsAt_failure CalculateExponentialBackoff ctx config
                  operationFn _ _ _ Hop) as Hstop.
    fold stops in Hstop. rewrite Hk in Hstop.
    assert (Hexit : exit (S (calls w)) =
                    if nonRetriable config (Some e)
                       || (attempt =? MaxAttempts config)
                    then (res, Some (ptr_RetryError operationName
                                       (MaxAttempts config) (Some e)))
                    else (res, Err ctx)).
    { unfold exit, exitOf. rewrite Hop, Hk. reflexivity. }
    destruct (nonRetriable config (Some e)) eqn:Hn.
    { injection Hrun as <- <-. rewrite calls_logTo. cbn [invoked calls].
      repeat split; try lia; [exact Hstop | symmetry; exact Hexit]. }
    destruct (attempt =? MaxAttempts config) eqn:Hm.
    { injection Hrun as <- <-. rewrite calls_logTo. cbn [invoked calls].
      repeat split; try lia; [exact Hstop | symmetry; exact Hexit]. }
    apply Z.eqb_neq in Hm.
    destruct (Done ctx attempt _) eqn:Hd.
    { injection Hrun as <- <-. rewrite calls_logTo. cbn [invoked calls].
      repeat split; try lia; [exact Hstop | symmetry; exact Hexit]. }
    apply IH in Hrun; [| lia | rewrite calls_logTo; cbn [invoked calls]; lia].
    rewrite calls_logTo in Hrun. cbn [invoked calls] in Hrun.
    destruct Hrun as (H1 & H2 & H3 & H4 & H5).
    repeat split; try assumption; try lia.
    intros i Hi.
    destruct (Nat.eq_dec i (S (calls w))) as [->|Hne];
      [exact Hstop | apply H4; lia].
  - injection Hrun as <- <-.
    assert (Hcalls' : calls (if attempt >? 1
                             then logTo (Logger config) slog.LevelInfo
                                    "Operation succeeded after retry"
                                    [slog.String "operation" operationName;
                                     slog.Int "attempt" attempt] (invoked w)
                             else invoked w) = S (calls w)).
    { destruct (attempt >? 1); [rewrite calls_logTo|]; reflexivity. }
    rewrite Hcalls'.
    repeat split; try lia.
    + apply (stopsAt_success _ _ _ _ _ res). exact Hop.
    + unfold exit, exitOf. rewrite Hop. reflexivity.
Qed.

(** The records the loop appends are those of its calls, in order. *)
Lemma loop_events (fuel : nat) :
  forall attempt result lastErr w r w',
    run fuel attempt result lastErr w = Some (r, w') ->
    attempt <= MaxAttempts config ->
    Z.of_nat (calls w) = attempt - 1 ->
    log w' =
    (log w ++ flat_map event (seq (S (calls w)) (calls w' - calls w)))%list.
Proof.
  induction fuel as [|fuel IH];
    intros attempt result lastErr w r w' Hrun Hle Hcalls; [discriminate|].
  pose proof (loop_course (S fuel) _ _ _ _ _ _ Hrun Hle Hcalls)
    as (Hlt & _).
  cbn [run loop] in Hrun.
  destruct (attempt <=? MaxAttempts config) eqn:Hc;
    [|apply Z.leb_gt in Hc; lia].
  assert (Hk : Z.of_nat (S (calls w)) = attempt) by lia.
  destruct (operationFn ctx (S (calls w))) as [res [e|]] eqn:Hop.
  - assert (Hev : event (S (calls w)) =
                  match Logger config with
                  | None => []
                  | Some _ =>
                      if nonRetriable config (Some e)
                      then [retry_aborted_non_retriable operationName attempt e]
                      else [retry_will_retry operationName attempt
                              (MaxAttempts config) e]
                  end).
    { unfold event, attemptEvent. rewrite Hop, Hk. reflexivity. }
    destruct (nonRetriable config (Some e)) eqn:Hn.
    { injection Hrun as _ <-. rewrite calls_logTo. cbn [invoked calls].
      replace (S (calls w) - calls w)%nat with 1%nat by lia. cbn [seq flat_map]. rewrite Hev, app_nil_r.
      destruct (Logger config); cbn; [reflexivity | rewrite app_nil_r; reflexivity]. }
    assert (Hlog :
      log (logTo (Logger config) slog.LevelError "Operation failed, will retry"
             [slog.String "operation" operationName; slog.Int "attempt" attempt;
              slog.Int "max_attempt" (MaxAttempts config);
              slog.Any "error" (Some e)] (invoked w)) =
      (log w ++ event (S (calls w)))%list).
    { rewrite Hev. destruct (Logger config); cbn;
        [reflexivity | rewrite app_nil_r; reflexivity]. }
    destruct (attempt =? MaxAttempts config) eqn:Hm.
    { injection Hrun as _ <-. rewrite calls_logTo. cbn [invoked calls].
      replace (S (calls w) - calls w)%nat with 1%nat by lia. cbn [seq flat_map].
      rewrite app_nil_r. exact Hlog. }
    apply Z.eqb_neq in Hm.
    destruct (Done ctx attempt _) eqn:Hd.
    { injection Hrun as _ <-. rewrite calls_logTo. cbn [invoked calls].
      replace (S (calls w) - calls w)%nat with 1%nat by lia. cbn [seq flat_map].
      rewrite app_nil_r. exact Hlog. }
    pose proof Hrun as Hrun'.
    apply IH in Hrun; [| lia | rewrite calls_logTo; cbn [invoked calls]; lia].
    apply loop_course in Hrun';
      [| lia | rewrite calls_logTo; cbn [invoked calls]; lia].
    destruct Hrun' as (Hlt' & _).
    rewrite calls_logTo in Hrun, Hlt'. cbn [invoked calls] in Hrun, Hlt'.
    rewrite Hrun, Hlog.
    replace (calls w' - calls w)%nat with (S (calls w' - S (calls w))) by lia.
    cbn [seq flat_map]. rewrite app_assoc. reflexivity.
  - injection Hrun as _ <-.
    assert (Hev : event (S (calls w)) =
                  match Logger config with
                  | None => []
                  | Some _ =>
                      if attempt >? 1
                      then [retry_succeeded operationName attempt] else []
                  end).
    { unfold event, attemptEvent. rewrite Hop, Hk. reflexivity. }
    destruct (attempt >? 1).
    + rewrite calls_logTo. cbn [invoked calls].
      replace (S (calls w) - calls w)%nat with 1%nat by lia. cbn [seq flat_map]. rewrite Hev, app_nil_r.
      destruct (Logger config); cbn;
        [reflexivity | rewrite app_nil_r; reflexivity].
    + cbn [invoked calls log].
      replace (S (calls w) - calls w)%nat with 1%nat by lia. cbn [seq flat_map]. rewrite Hev, app_nil_r.
      destruct (Logger config); cbn; rewrite app_nil_r; reflexivity.
Qed.

End CourseFacts.

(** Two runs of the loop agree when their policies have the same budget
    and logger and take the same decisions: the same verdict on every
    non-nil error and the same outcome of every wait. *)
Lemma loop_congruence {T : Type}
    (b1 b2 : Z -> time.Duration -> time.Duration -> time.Duration)
    (ctx : Context) (c1 c2 : RetryConfig) (operationName : string)
    (operationFn : operation T) :
  MaxAttempts c1 = MaxAttempts c2 ->
  Logger c1 = Logger c2 ->
  (forall e, nonRetriable c1 (Some e) = nonRetriable c2 (Some e)) ->
  (forall a, Done ctx a (b1 a (MinDelay c1) (MaxDelay c1)) =
             Done ctx a (b2 a (MinDelay c2) (MaxDelay c2))) ->
  forall fuel attempt result lastErr w,
    loop b1 ctx c1 operationName operationFn fuel attempt result lastErr w =
    loop b2 ctx c2 operationName operationFn fuel attempt result lastErr w.
Proof.
  intros HM HL Hn Hd fuel.
  induction fuel as [|fuel IH]; intros attempt result lastErr w;
    [reflexivity|].
  cbn [loop]. unfold afterLoop. rewrite <- HM, <- HL.
  destruct (attempt <=? MaxAttempts c1); [|reflexivity].
  destruct (operationFn ctx (S (calls w))) as [res [e|]]; [|reflexivity].
  rewrite <- Hn. destruct (nonRetriable c1 (Some e)); [reflexivity|].
  destruct (attempt =? MaxAttempts c1); [reflexivity|].
  rewrite <- Hd.
  destruct (Done ctx attempt _); [reflexivity|].
  apply IH.
Qed.

(** The loop of [retry.go] is the loop with the classifier test, run on a
    policy that accepts every error. *)
Lemma retry_go_loop_eq {T : Type}
    (backoff : Z -> time.Duration -> time.Duration -> time.Duration)
    (ctx : Context) (c : retry_go.RetryConfig) (operationName : string)
    (operationFn : operation T) :
  forall fuel attempt result lastErr w,
    retry_go.loop T backoff ctx c operationName operationFn
      fuel attempt result lastErr w =
    loop backoff ctx (retryEverything c) operationName operationFn
      fuel attempt result lastErr w.
Proof.
  induction fuel as [|fuel IH]; intros attempt result lastErr w;
    [reflexivity|].
  cbn [loop retry_go.loop]. unfold afterLoop.
  cbn [retryEverything MaxAttempts MinDelay MaxDelay Logger].
  destruct (attempt <=? retry_go.MaxAttempts c); [|reflexivity].
  destruct (operationFn ctx (S (calls w))) as [res [e|]]; [|reflexivity].
  cbn [nonRetriable ShouldRetry negb].
  destruct (attempt =? retry_go.MaxAttempts c); [reflexivity|].
  destruct (Done ctx attempt _); [reflexivity|].
  apply IH.
Qed.

Lemma retry_go_setDefaults (c : retry_go.RetryConfig) :
  setDefaults (retryEverything c) = retryEverything (retry_go.setDefaults c).
Proof.
  destruct c as [n lo hi l].
  unfold setDefaults, retry_go.setDefaults, retryEverything.
  destruct (n <=? 0) eqn:E1, (lo <=? 0) eqn:E2, (hi <=? 0) eqn:E3;
    repeat (cbn -[Z.leb Z.mul]; rewrite ?E1, ?E2, ?E3); reflexivity.
Qed.

Lemma retry_go_WithRetry_eq {T : Type} (zero : T)
    (backoff : Z -> time.Duration -> time.Duration -> time.Duration)
    (ctx : Context) (c : retry_go.RetryConfig) (operationName : string)
    (operationFn : operation T) :
  retry_go.WithRetry zero backoff ctx c operationName operationFn =
  WithRetry zero backoff ctx (retryEverything c) operationName operationFn.
Proof.
  unfold retry_go.WithRetry, WithRetry.
  rewrite retry_go_setDefaults, retry_go_loop_eq. reflexivity.
Qed.

(* ===================================================================== *)
(** ** The course of [WithRetry]                                         *)
(* ===================================================================== *)

Section WithRetryCourse.

Variable T : Type.
Variable zero : T.
Variable CalculateExponentialBackoff :
  Z -> time.Duration -> time.Duration -> time.Duration.
Variable ctx : Context.
Variable config : RetryConfig.
Variable operationName : string.
Variable operationFn : operation T.

Let call := WithRetry zero CalculateExponentialBackoff ctx config
              operationName operationFn.
Let policy' := setDefaults config.
Let stops := stopsAt CalculateExponentialBackoff ctx policy' operationFn.
Let exit := exitOf ctx policy' operationName operationFn.
Let event := attemptEvent ctx policy' operationName operationFn.
Let delay (attempt : Z) : time.Duration :=
  CalculateExponentialBackoff attempt (MinDelay policy') (MaxDelay policy').

(** [WithRetry] leaves after the first call at which [stopsAt] holds. *)
Lemma WithRetry_course (r : T * option error) (w : world) :
  call = Some (r, w) ->
  (1 <= calls w)%nat /\
  Z.of_nat (calls w) <= MaxAttempts policy' /\
  stops (calls w) = true /\
  (forall i, (1 <= i < calls w)%nat -> stops i = false) /\
  r = exit (calls w) /\
  log w = flat_map event (seq 1 (calls w)).
Proof.
  intro H. unfold call, WithRetry in H. fold policy' in H.
  pose proof (MaxAttempts_setDefaults_pos config) as Hpos. fold policy' in Hpos.
  pose proof (loop_course _ _ _ _ _ _ _ _ _ _ _ _ _ H Hpos eq_refl)
    as (H1 & H2 & H3 & H4 & H5).
  pose proof (loop_events _ _ _ _ _ _ _ _ _ _ _ _ _ H Hpos eq_refl) as H6.
  cbn [calls log] in H1, H4, H6.
  rewrite Nat.sub_0_r in H6. cbn [app] in H6.
  split; [lia|]. split; [exact H2|]. split; [exact H3|].
  split; [intros i Hi; apply H4; lia|]. split; assumption.
Qed.

(** Conversely, the first call at which [stopsAt] holds is where
    [WithRetry] leaves, and it fixes the result and the log. *)
Lemma WithRetry_stops_at (k : nat) :
  (1 <= k)%nat ->
  stops k = true ->
  (forall i, (1 <= i < k)%nat -> stops i = false) ->
  exists w,
    call = Some (exit k, w) /\ calls w = k /\
    log w = flat_map event (seq 1 k).
Proof.
  intros Hk Hstop Hbefore.
  destruct (WithRetry_returns T zero CalculateExponentialBackoff ctx config
              operationName operationFn) as [[r w] Hr].
  fold call in Hr.
  destruct (WithRetry_course r w Hr) as (H1 & _ & H3 & H4 & H5 & H6).
  assert (Heq : calls w = k).
  { destruct (Nat.lt_trichotomy (calls w) k) as [Hlt|[Heq|Hgt]].
    - rewrite Hbefore in H3 by lia. discriminate.
    - exact Heq.
    - rewrite H4 in Hstop by lia. discriminate. }
  exists w. rewrite Heq in H5, H6. subst r.
  repeat split; assumption.
Qed.

(** An attempt after which the loop goes on: the call failed with an
    error the classifier accepts, the budget is not used up, and the wait
    was not interrupted. *)
Lemma stops_false_iff (i : nat) :
  stops i = false <->
  exists x e,
    operationFn ctx i = (x, Some e) /\
    classifier config (Some e) = true /\
    Z.of_nat i <> MaxAttempts policy' /\
    Done ctx (Z.of_nat i) (delay (Z.of_nat i)) = false.
Proof.
  unfold stops, stopsAt, delay.
  destruct (operationFn ctx i) as [x [e|]] eqn:Hop; cbn [snd].
  - unfold policy' at 1. rewrite nonRetriable_setDefaults.
    rewrite !orb_false_iff, negb_false_iff, Z.eqb_neq.
    split.
    + intros [[H1 H2] H3]. exists x, e. repeat split; assumption.
    + intros (x' & e' & Heq & H1 & H2 & H3).
      injection Heq as <- <-. repeat split; assumption.
  - split; [discriminate|].
    intros (x' & e' & Heq & _). discriminate.
Qed.

End WithRetryCourse.

(** C2, as the code has it.  A cancellation or deadline error observed by
    the inter-attempt wait is returned verbatim: when the wait after the
    [j]-th attempt is interrupted, [WithRetry] returns [ctx.Err()] itself,
    after [j] calls.  An error returned by [WithRetry] is either that, or
    a [RetryError] around the error of the last call of the operation; in
    particular, under the built-in classifier an operation whose first
    error is or wraps a cancellation or deadline signal is called once and
    that error comes back inside a [RetryError]. *)
Theorem cancellation_verbatim_only_from_wait {T : Type} (zero : T)
    (backoff : Z -> time.Duration -> time.Duration -> time.Duration)
    (ctx : Context) (config : RetryConfig) (operationName : string)
    (operationFn : operation T) :
  let delay a :=
    backoff a (MinDelay (setDefaults config)) (MaxDelay (setDefaults config)) in
  (forall j,
      (1 <= j)%nat ->
      Z.of_nat j < MaxAttempts (setDefaults config) ->
      (forall i, (1 <= i <= j)%nat ->
         exists x e, operationFn ctx i = (x, Some e) /\
                     classifier config (Some e) = true) ->
      (forall i, (1 <= i < j)%nat ->
         Done ctx (Z.of_nat i) (delay (Z.of_nat i)) = false) ->
      Done ctx (Z.of_nat j) (delay (Z.of_nat j)) = true ->
      exists w,
        WithRetry zero backoff ctx config operationName operationFn =
          Some ((fst (operationFn ctx j), Err ctx), w) /\
        calls w = j)
  /\
  (forall v err w,
      WithRetry zero backoff ctx config operationName operationFn =
        Some ((v, Some err), w) ->
      (Some err = Err ctx /\
       exists a, 1 <= a < MaxAttempts (setDefaults config) /\
                 Done ctx a (delay a) = true)
      \/
      (exists e, operationFn ctx (calls w) = (v, Some e) /\
                 err = ptr_RetryError operationName
                         (MaxAttempts (setDefaults config)) (Some e)))
  /\
  (forall v e,
      operationFn ctx 1%nat = (v, Some e) ->
      ShouldRetry config = None ->
      existsb isSignal (errors.chain e) = true ->
      exists w,
        WithRetry zero backoff ctx config operationName operationFn =
          Some ((v, Some (ptr_RetryError operationName
                            (MaxAttempts (setDefaults config)) (Some e))), w)
        /\ calls w = 1%nat).
Proof.
  cbv zeta. split; [|split].
  - intros j Hj HM Hfail Hwait Hdone.
    destruct (Hfail j ltac:(lia)) as (v & e & Hv & He).
    destruct (WithRetry_stops_at T zero backoff ctx config operationName
                operationFn j) as (w & Hw & Hc & _).
    + exact Hj.
    + rewrite (stopsAt_failure _ _ _ _ _ _ _ Hv), Hdone.
      apply orb_true_r.
    + intros i Hi. apply stops_false_iff.
      destruct (Hfail i ltac:(lia)) as (x & e' & Hx & He').
      exists x, e'.
      split; [exact Hx|]. split; [exact He'|].
      split; [lia | apply Hwait; lia].
    + exists w. split; [|exact Hc].
      rewrite Hw. unfold exitOf.
      rewrite Hv, nonRetriable_setDefaults, He. cbn [negb orb fst].
      destruct (Z.eqb_spec (Z.of_nat j) (MaxAttempts (setDefaults config)));
        [lia | reflexivity].
  - intros v err w H.
    apply WithRetry_exit in H.
    destruct H as [_ [oe [Hop [[_ H]|[(e & a & _ & Ha & Hd & He)|(e & Hoe & He)]]]]].
    + discriminate.
    + left. split; [exact He|]. exists a. split; assumption.
    + right. exists e. subst oe. split; [exact Hop|].
      injection He as ->. reflexivity.
  - intros v e Hop Hnil Hrow.
    eexists. split.
    + apply WithRetry_first_rejected; [exact Hop|].
      unfold classifier.
      rewrite Hnil, shouldRetryError_rows, row_cancellation_isSignal, Hrow.
      reflexivity.
    + reflexivity.
Qed.

(** C2 at a wait interrupted after the second attempt: the cancellation
    error of the context comes back verbatim, after two calls. *)
Lemma cancellation_verbatim_only_from_wait_witness :
  exists w,
    WithRetry 0 doublingBackoff (cancelledDuring 2) (policy 5) "fetch"
      (alwaysFails 7 (ptr_HTTPError (mkHTTPError 503 "busy"))) =
      Some ((fst (alwaysFails 7 (ptr_HTTPError (mkHTTPError 503 "busy"))
                    (cancelledDuring 2) 2%nat),
             Err (cancelledDuring 2)), w) /\
    calls w = 2%nat.
Proof.
  apply (proj1 (cancellation_verbatim_only_from_wait 0 doublingBackoff
                  (cancelledDuring 2) (policy 5) "fetch"
                  (alwaysFails 7 (ptr_HTTPError (mkHTTPError 503 "busy"))))
               2%nat).
  - lia.
  - cbn. lia.
  - intros i _. exists 7, (ptr_HTTPError (mkHTTPError 503 "busy")).
    split; reflexivity.
  - intros i Hi. assert (i = 1%nat) as -> by lia. reflexivity.
  - reflexivity.
Defined.

Lemma flat_map_all_nil {A B : Type} (f : A -> list B) (l : list A) :
  (forall x, f x = []) -> flat_map f l = [].
Proof.
  intro H. induction l as [|a l IH]; [reflexivity|].
  cbn. rewrite H, IH. reflexivity.
Qed.

Lemma flat_map_at_most_one {A B : Type} (f : A -> list B) (l : list A) :
  (forall x, (List.length (f x) <= 1)%nat) ->
  (List.length (flat_map f l) <= List.length l)%nat.
Proof.
  intro H. induction l as [|a l IH]; [apply le_n|].
  cbn. rewrite List.length_app. specialize (H a). lia.
Qed.

Lemma attemptEvent_at_most_one {T : Type} ctx config name (op : operation T) k :
  (List.length (attemptEvent ctx config name op k) <= 1)%nat.
Proof.
  unfold attemptEvent.
  destruct (Logger config); [|apply Nat.le_0_l].
  destruct (snd (op ctx k)).
  - destruct (nonRetriable config (Some e)); apply le_n.
  - destruct (Z.of_nat k >? 1); [apply le_n | apply Nat.le_0_l].
Qed.

(* ===================================================================== *)
(** ** Further properties of [WithRetry]                                 *)
(* ===================================================================== *)

(** X8.  The number of calls of the operation is at least one and at most
    the attempt budget: [MaxAttempts] when it is positive, 3 otherwise. *)
Theorem attempts_within_budget {T : Type} (zero : T)
    (backoff : Z -> time.Duration -> time.Duration -> time.Duration)
    (ctx : Context) (config : RetryConfig) (operationName : string)
    (operationFn : operation T) (r : T * option error) (w : world) :
  WithRetry zero backoff ctx config operationName operationFn = Some (r, w) ->
  (1 <= calls w)%nat /\
  (0 < MaxAttempts config -> Z.of_nat (calls w) <= MaxAttempts config) /\
  (MaxAttempts config <= 0 -> (calls w <= 3)%nat).
Proof.
  intro H. apply WithRetry_course in H. destruct H as (H1 & H2 & _).
  rewrite setDefaults_policyWithDefaults in H2. cbn [policyWithDefaults MaxAttempts] in H2.
  split; [exact H1|].
  destruct (Z.leb_spec (MaxAttempts config) 0); split; intro; lia.
Qed.

Lemma attempts_within_budget_witness :
  (1 <= calls (mkWorld 2 []))%nat /\
  (0 < MaxAttempts (policy 2) ->
   Z.of_nat (calls (mkWorld 2 [])) <= MaxAttempts (policy 2)) /\
  (MaxAttempts (policy 2) <= 0 -> (calls (mkWorld 2 []) <= 3)%nat).
Proof.
  apply (attempts_within_budget 0 doublingBackoff Background (policy 2)
           "fetch" (alwaysFails 0 (ptr_HTTPError (mkHTTPError 503 "busy")))
           (0, Some (ptr_RetryError "fetch" 2
                       (Some (ptr_HTTPError (mkHTTPError 503 "busy")))))
           (mkWorld 2 [])).
  reflexivity.
Defined.

(** X9.  No attempt follows a success, a non-retriable error or an
    interrupted wait: every call before the last one failed with an error
    the classifier accepts, and the wait after it ran to its end. *)
Theorem earlier_attempts_were_retryable {T : Type} (zero : T)
    (backoff : Z -> time.Duration -> time.Duration -> time.Duration)
    (ctx : Context) (config : RetryConfig) (operationName : string)
    (operationFn : operation T) (r : T * option error) (w : world)
    (i : nat) :
  WithRetry zero backoff ctx config operationName operationFn = Some (r, w) ->
  (1 <= i < calls w)%nat ->
  exists x e,
    operationFn ctx i = (x, Some e) /\
    classifier config (Some e) = true /\
    Done ctx (Z.of_nat i)
      (backoff (Z.of_nat i) (MinDelay (setDefaults config))
         (MaxDelay (setDefaults config))) = false.
Proof.
  intros H Hi. apply WithRetry_course in H.
  destruct H as (_ & _ & _ & H4 & _).
  apply H4, stops_false_iff in Hi.
  destruct Hi as (x & e & H1 & H2 & _ & H3).
  exists x, e. repeat split; assumption.
Qed.

Lemma earlier_attempts_were_retryable_witness :
  exists x e,
    scripted [(0, Some (ptr_HTTPError (mkHTTPError 503 "busy")));
              (0, Some (ptr_HTTPError (mkHTTPError 404 "Not Found")))]
      Background 1%nat = (x, Some e) /\
    classifier (policy 5) (Some e) = true /\
    Done Background (Z.of_nat 1)
      (doublingBackoff (Z.of_nat 1) (MinDelay (setDefaults (policy 5)))
         (MaxDelay (setDefaults (policy 5)))) = false.
Proof.
  apply (earlier_attempts_were_retryable 0 doublingBackoff Background
           (policy 5) "fetch"
           (scripted [(0, Some (ptr_HTTPError (mkHTTPError 503 "busy")));
                      (0, Some (ptr_HTTPError (mkHTTPError 404 "Not Found")))])
           (0, Some (ptr_RetryError "fetch" 5
                       (Some (ptr_HTTPError (mkHTTPError 404 "Not Found")))))
           (mkWorld 2 []) 1%nat).
  - reflexivity.
  - cbn. lia.
Defined.

(** X10.  What [WithRetry] returns is fixed by the last call of the
    operation.  If it succeeded, its value and a nil error.  If it failed
    with an error the classifier rejects, its value and a [RetryError]
    carrying the configured maximum.  If it failed with an accepted error,
    then either it was the last attempt of the budget and the [RetryError]
    carries the number of calls made, or the wait after it was interrupted
    and [ctx.Err()] is returned. *)
Theorem result_follows_last_attempt {T : Type} (zero : T)
    (backoff : Z -> time.Duration -> time.Duration -> time.Duration)
    (ctx : Context) (config : RetryConfig) (operationName : string)
    (operationFn : operation T) (v : T) (err : option error) (w : world) :
  WithRetry zero backoff ctx config operationName operationFn =
    Some ((v, err), w) ->
  match operationFn ctx (calls w) with
  | (x, None) => v = x /\ err = None
  | (x, Some e) =>
      v = x /\
      if classifier config (Some e) then
        if Z.of_nat (calls w) =? MaxAttempts (setDefaults config) then
          err = Some (ptr_RetryError operationName (Z.of_nat (calls w))
                        (Some e))
        else
          err = Err ctx /\
          Done ctx (Z.of_nat (calls w))
            (backoff (Z.of_nat (calls w)) (MinDelay (setDefaults config))
               (MaxDelay (setDefaults config))) = true
      else
        err = Some (ptr_RetryError operationName
                      (MaxAttempts (setDefaults config)) (Some e))
  end.
Proof.
  intro H. apply WithRetry_course in H.
  destruct H as (_ & _ & H3 & _ & H5 & _).
  unfold exitOf in H5. unfold stopsAt in H3.
  destruct (operationFn ctx (calls w)) as [x [e|]]; cbn [snd] in H3.
  - rewrite nonRetriable_setDefaults in H3, H5.
    destruct (classifier config (Some e)); cbn [negb orb] in H3, H5.
    + destruct (Z.of_nat (calls w) =? MaxAttempts (setDefaults config))
        eqn:Hm; cbn [orb] in H3; injection H5 as -> ->.
      * apply Z.eqb_eq in Hm. rewrite Hm. split; reflexivity.
      * repeat split. exact H3.
    + injection H5 as -> ->. split; reflexivity.
  - injection H5 as -> ->. split; reflexivity.
Qed.

Lemma result_follows_last_attempt_witness :
  match alwaysFails 7 (ptr_HTTPError (mkHTTPError 503 "busy"))
          (cancelledDuring 2) (calls (mkWorld 2 [])) with
  | (x, None) => 7 = x /\ Some context_Canceled = None
  | (x, Some e) =>
      7 = x /\
      if classifier (policy 5) (Some e) then
        if Z.of_nat (calls (mkWorld 2 []))
           =? MaxAttempts (setDefaults (policy 5)) then
          Some context_Canceled =
          Some (ptr_RetryError "fetch" (Z.of_nat (calls (mkWorld 2 [])))
                  (Some e))
        else
          Some context_Canceled = Err (cancelledDuring 2) /\
          Done (cancelledDuring 2) (Z.of_nat (calls (mkWorld 2 [])))
            (doublingBackoff (Z.of_nat (calls (mkWorld 2 [])))
               (MinDelay (setDefaults (policy 5)))
               (MaxDelay (setDefaults (policy 5)))) = true
      else
        Some context_Canceled =
        Some (ptr_RetryError "fetch" (MaxAttempts (setDefaults (policy 5)))
                (Some e))
  end.
Proof.
  apply (result_follows_last_attempt 0 doublingBackoff (cancelledDuring 2)
           (policy 5) "fetch"
           (alwaysFails 7 (ptr_HTTPError (mkHTTPError 503 "busy")))
           7 (Some context_Canceled) (mkWorld 2 [])).
  reflexivity.
Defined.

(** X11.  An operation that fails [j] times with errors the classifier
    accepts and then succeeds, with budget for [j + 1] attempts and no
    wait interrupted, is called exactly [j + 1] times and its value is
    returned with a nil error. *)
Theorem success_after_retries {T : Type} (zero : T)
    (backoff : Z -> time.Duration -> time.Duration -> time.Duration)
    (ctx : Context) (config : RetryConfig) (operationName : string)
    (operationFn : operation T) (j : nat) (v : T) :
  Z.of_nat j < MaxAttempts (setDefaults config) ->
  (forall i, (1 <= i <= j)%nat ->
     exists x e, operationFn ctx i = (x, Some e) /\
                 classifier config (Some e) = true) ->
  (forall i d, (1 <= i <= j)%nat -> Done ctx (Z.of_nat i) d = false) ->
  operationFn ctx (S j) = (v, None) ->
  exists w,
    WithRetry zero backoff ctx config operationName operationFn =
      Some ((v, None), w) /\
    calls w = S j.
Proof.
  intros Hj Hfail Hdone Hok.
  destruct (WithRetry_stops_at T zero backoff ctx config operationName
              operationFn (S j)) as (w & Hw & Hc & _).
  - lia.
  - apply (stopsAt_success _ _ _ _ _ v). exact Hok.
  - intros i Hi. apply stops_false_iff.
    destruct (Hfail i ltac:(lia)) as (x & e & Hx & He).
    exists x, e. repeat split; try assumption; [lia | apply Hdone; lia].
  - exists w. split; [|exact Hc].
    rewrite Hw. unfold exitOf. rewrite Hok. reflexivity.
Qed.

Lemma success_after_retries_witness :
  exists w,
    WithRetry 0 doublingBackoff Background (policy 3) "fetch"
      (failsThenSucceeds 2 (ptr_HTTPError (mkHTTPError 500 "down")) 9) =
      Some ((9, None), w) /\
    calls w = 3%nat.
Proof.
  apply (success_after_retries 0 doublingBackoff Background (policy 3)
           "fetch"
           (failsThenSucceeds 2 (ptr_HTTPError (mkHTTPError 500 "down")) 9)
           2 9).
  - cbn. lia.
  - intros i Hi. exists 0, (ptr_HTTPError (mkHTTPError 500 "down")).
    split; [|reflexivity].
    unfold failsThenSucceeds.
    destruct (Nat.leb_spec i 2); [reflexivity | lia].
  - intros i d _. reflexivity.
  - reflexivity.
Defined.

(** X12.  The log of an invocation is the concatenation, in order, of the
    records of its calls: nothing for a success at the first call, the
    "succeeded" record for a later success, the "aborted" record for a
    rejected error, the "will retry" record for an accepted one, the last
    of the budget included.  Without a logger nothing is recorded, and
    there is never more than one record per call. *)
Theorem events_follow_attempts {T : Type} (zero : T)
    (backoff : Z -> time.Duration -> time.Duration -> time.Duration)
    (ctx : Context) (config : RetryConfig) (operationName : string)
    (operationFn : operation T) (r : T * option error) (w : world) :
  WithRetry zero backoff ctx config operationName operationFn = Some (r, w) ->
  log w =
    flat_map (attemptEvent ctx (setDefaults config) operationName operationFn)
      (seq 1 (calls w)) /\
  (Logger config = None -> log w = []) /\
  (List.length (log w) <= calls w)%nat.
Proof.
  intro H. apply WithRetry_course in H.
  destruct H as (_ & _ & _ & _ & _ & H6).
  split; [exact H6|]. split.
  - intro Hnil. rewrite H6. apply flat_map_all_nil.
    intro k. unfold attemptEvent.
    rewrite Logger_setDefaults, Hnil. reflexivity.
  - rewrite H6.
    etransitivity;
      [apply flat_map_at_most_one; intro; apply attemptEvent_at_most_one|].
    rewrite length_seq. apply le_n.
Qed.

Lemma events_follow_attempts_witness :
  let op := failsThenSucceeds 1 (ptr_HTTPError (mkHTTPError 500 "down")) 9 in
  let w := mkWorld 2
             [retry_will_retry "fetch" 1 3
                (ptr_HTTPError (mkHTTPError 500 "down"));
              retry_succeeded "fetch" 2] in
  log w =
    flat_map (attemptEvent Background (setDefaults (loggedPolicy 3)) "fetch" op)
      (seq 1 (calls w)) /\
  (Logger (loggedPolicy 3) = None -> log w = []) /\
  (List.length (log w) <= calls w)%nat.
Proof.
  apply (events_follow_attempts 0 doublingBackoff Background (loggedPolicy 3)
           "fetch"
           (failsThenSucceeds 1 (ptr_HTTPError (mkHTTPError 500 "down")) 9)
           (9, None)).
  reflexivity.
Defined.




(** X15.  The classifier is consulted on non-nil errors only: two
    policies that differ only in classifiers agreeing on every non-nil
    error give the same invocation. *)
Theorem classifier_sees_errors_only {T : Type} (zero : T)
    (backoff : Z -> time.Duration -> time.Duration -> time.Duration)
    (ctx : Context) (n : Z) (lo hi : time.Duration)
    (l : option slog.Logger) (f g : option error -> bool)
    (operationName : string) (operationFn : operation T) :
  (forall e, f (Some e) = g (Some e)) ->
  WithRetry zero backoff ctx (mkRetryConfig n lo hi l (Some f))
    operationName operationFn =
  WithRetry zero backoff ctx (mkRetryConfig n lo hi l (Some g))
    operationName operationFn.
Proof.
  intro Hfg. unfold WithRetry.
  rewrite !setDefaults_policyWithDefaults.
  cbn [policyWithDefaults MaxAttempts].
  apply loop_congruence; try reflexivity.
  intro e. cbn. rewrite Hfg. reflexivity.
Qed.

Lemma classifier_sees_errors_only_witness :
  WithRetry 0 doublingBackoff Background
    (mkRetryConfig 3 0 0 None (Some (fun _ => true))) "fetch"
    (alwaysFails 0 (ptr_HTTPError (mkHTTPError 404 "Not Found"))) =
  WithRetry 0 doublingBackoff Background
    (mkRetryConfig 3 0 0 None
       (Some (fun e => match e with Some _ => true | None => false end)))
    "fetch" (alwaysFails 0 (ptr_HTTPError (mkHTTPError 404 "Not Found"))).
Proof.
  apply (classifier_sees_errors_only 0 doublingBackoff Background 3 0 0 None
           (fun _ => true)
           (fun e => match e with Some _ => true | None => false end)).
  intro e. reflexivity.
Defined.

(** X16.  With a context that is never done ([context.Background()]),
    so that every wait runs to its end, the invocation is the same for
    every delay calculator: the delays change how long it takes, not what
    it returns, calls or logs. *)
Theorem delays_matter_only_to_waits {T : Type} (zero : T)
    (b1 b2 : Z -> time.Duration -> time.Duration -> time.Duration)
    (ctx : Context) (config : RetryConfig) (operationName : string)
    (operationFn : operation T) :
  (forall a d, Done ctx a d = false) ->
  WithRetry zero b1 ctx config operationName operationFn =
  WithRetry zero b2 ctx config operationName operationFn.
Proof.
  intro Hd. unfold WithRetry.
  apply loop_congruence; try reflexivity.
  intro a. rewrite !Hd. reflexivity.
Qed.

Lemma delays_matter_only_to_waits_witness :
  WithRetry 0 doublingBackoff Background (policy 3) "fetch"
    (alwaysFails 0 (ptr_HTTPError (mkHTTPError 503 "busy"))) =
  WithRetry 0 (fun _ lo _ => lo) Background (policy 3) "fetch"
    (alwaysFails 0 (ptr_HTTPError (mkHTTPError 503 "busy"))).
Proof.
  apply (delays_matter_only_to_waits 0 doublingBackoff (fun _ lo _ => lo)
           Background (policy 3) "fetch"
           (alwaysFails 0 (ptr_HTTPError (mkHTTPError 503 "busy")))).
  intros a d. reflexivity.
Defined.

(** X17.  Defaulting changes nothing else: a policy is left as it is
    exactly when its three numbers are positive and its classifier is not
    nil; in particular a ceiling below the floor is not adjusted. *)
Theorem complete_policy_is_kept (config : RetryConfig) :
  setDefaults config = config <->
  0 < MaxAttempts config /\ 0 < MinDelay config /\ 0 < MaxDelay config /\
  ShouldRetry config <> None.
Proof.
  rewrite setDefaults_policyWithDefaults.
  destruct config as [n lo hi l f].
  unfold policyWithDefaults, classifier.
  cbn [MaxAttempts MinDelay MaxDelay Logger ShouldRetry].
  split.
  - intro H. injection H as H1 H2 H3 H4.
    destruct (Z.leb_spec n 0), (Z.leb_spec lo 0), (Z.leb_spec hi 0);
      try lia.
    repeat split; try lia. rewrite <- H4. discriminate.
  - intros (H1 & H2 & H3 & H4).
    destruct (Z.leb_spec n 0), (Z.leb_spec lo 0), (Z.leb_spec hi 0);
      try lia.
    destruct f as [f|]; [reflexivity | contradiction].
Qed.

(** X18.  A negative attempt budget, floor or ceiling is replaced by the
    default like a zero one. *)
Theorem negative_fields_take_defaults {T : Type} (zero : T)
    (backoff : Z -> time.Duration -> time.Duration -> time.Duration)
    (ctx : Context) (config : RetryConfig) (operationName : string)
    (operationFn : operation T) :
  let run c := WithRetry zero backoff ctx c operationName operationFn in
  (MaxAttempts config < 0 -> run config = run (set_MaxAttempts config 3)) /\
  (MinDelay config < 0 ->
   run config = run (set_MinDelay config (100 * time.Millisecond))) /\
  (MaxDelay config < 0 ->
   run config = run (set_MaxDelay config (5 * time.Second))).
Proof.
  cbv zeta. split; [|split]; intro H; apply WithRetry_setDefaults_eq;
    destruct config as [n lo hi l f];
    cbn [MaxAttempts MinDelay MaxDelay] in H;
    unfold policyWithDefaults, set_MaxAttempts, set_MinDelay, set_MaxDelay,
      classifier;
    cbn [MaxAttempts MinDelay MaxDelay Logger ShouldRetry].
  - destruct (Z.leb_spec n 0); [reflexivity | lia].
  - destruct (Z.leb_spec lo 0); [reflexivity | lia].
  - destruct (Z.leb_spec hi 0); [reflexivity | lia].
Qed.

Lemma negative_fields_take_defaults_witness :
  WithRetry 0 doublingBackoff Background (policy (-2)) "fetch"
    (alwaysFails 0 (ptr_HTTPError (mkHTTPError 503 "busy"))) =
  WithRetry 0 doublingBackoff Background (set_MaxAttempts (policy (-2)) 3)
    "fetch" (alwaysFails 0 (ptr_HTTPError (mkHTTPError 503 "busy"))).
Proof.
  apply (proj1 (negative_fields_take_defaults 0 doublingBackoff Background
                  (policy (-2)) "fetch"
                  (alwaysFails 0 (ptr_HTTPError (mkHTTPError 503 "busy"))))).
  reflexivity.
Defined.

(** X19.  An operation that fails [j >= 1] times with errors the
    classifier accepts, with budget left after the [j]-th attempt and the
    wait after it interrupted by the context (the earlier waits having run
    to their end), is called exactly [j] times: [WithRetry] returns the
    value of the [j]-th call with [ctx.Err()], and no [RetryError]. *)
Theorem interrupted_wait_stops_retries {T : Type} (zero : T)
    (backoff : Z -> time.Duration -> time.Duration -> time.Duration)
    (ctx : Context) (config : RetryConfig) (operationName : string)
    (operationFn : operation T) (j : nat) :
  (1 <= j)%nat ->
  Z.of_nat j < MaxAttempts (setDefaults config) ->
  (forall i, (1 <= i <= j)%nat ->
     exists x e, operationFn ctx i = (x, Some e) /\
                 classifier config (Some e) = true) ->
  (forall i d, (1 <= i < j)%nat -> Done ctx (Z.of_nat i) d = false) ->
  (forall d, Done ctx (Z.of_nat j) d = true) ->
  exists w,
    WithRetry zero backoff ctx config operationName operationFn =
      Some ((fst (operationFn ctx j), Err ctx), w) /\
    calls w = j.
Proof.
  intros Hj HM Hfail Hwait Hdone.
  destruct (Hfail j ltac:(lia)) as (v & e & Hv & He).
  destruct (WithRetry_stops_at T zero backoff ctx config operationName
              operationFn j) as (w & Hw & Hc & _).
  - exact Hj.
  - rewrite (stopsAt_failure _ _ _ _ _ _ _ Hv), Hdone.
    apply orb_true_r.
  - intros i Hi. apply stops_false_iff.
    destruct (Hfail i ltac:(lia)) as (x & e' & Hx & He').
    exists x, e'. repeat split; try assumption; [lia | apply Hwait; lia].
  - exists w. split; [|exact Hc].
    rewrite Hw. unfold exitOf.
    rewrite Hv, nonRetriable_setDefaults, He. cbn [negb orb fst].
    destruct (Z.eqb_spec (Z.of_nat j) (MaxAttempts (setDefaults config)));
      [lia | reflexivity].
Qed.

Lemma interrupted_wait_stops_retries_witness :
  exists w,
    WithRetry 0 doublingBackoff (cancelledDuring 2) (policy 5) "fetch"
      (alwaysFails 7 (ptr_HTTPError (mkHTTPError 503 "busy"))) =
      Some ((fst (alwaysFails 7 (ptr_HTTPError (mkHTTPError 503 "busy"))
                    (cancelledDuring 2) 2%nat),
             Err (cancelledDuring 2)), w) /\
    calls w = 2%nat.
Proof.
  apply (interrupted_wait_stops_retries 0 doublingBackoff (cancelledDuring 2)
           (policy 5) "fetch"
           (alwaysFails 7 (ptr_HTTPError (mkHTTPError 503 "busy"))) 2).
  - lia.
  - cbn. lia.
  - intros i _. exists 7, (ptr_HTTPError (mkHTTPError 503 "busy")).
    split; reflexivity.
  - intros i d Hi. assert (i = 1%nat) as -> by lia. reflexivity.
  - intro d. reflexivity.
Defined.

(* ===================================================================== *)
(** ** Properties of the executor of [retry.go]                          *)
(* ===================================================================== *)

(** X20.  [WithRetry] of [retry.go] is [WithRetry] with the classifier
    test, run on the same numbers and logger with a classifier that
    accepts every error. *)
Theorem retry_go_accepts_every_error {T : Type} (zero : T)
    (backoff : Z -> time.Duration -> time.Duration -> time.Duration)
    (ctx : Context) (n : Z) (lo hi : time.Duration)
    (l : option slog.Logger) (operationName : string)
    (operationFn : operation T) :
  retry_go.WithRetry zero backoff ctx (retry_go.mkRetryConfig n lo hi l)
    operationName operationFn =
  WithRetry zero backoff ctx (mkRetryConfig n lo hi l (Some (fun _ => true)))
    operationName operationFn.
Proof.
  apply (retry_go_WithRetry_eq zero backoff ctx
           (retry_go.mkRetryConfig n lo hi l)).
Qed.

(** X21.  In [retry.go] the [Attempts] of a [RetryError] is the number of
    calls made: an invocation ends with the success of its last call, with
    [ctx.Err()] from an interrupted wait, or with a [RetryError] around
    the error of the last call whose [Attempts] counts the calls. *)
Theorem retry_go_Attempts_counts_calls {T : Type} (zero : T)
    (backoff : Z -> time.Duration -> time.Duration -> time.Duration)
    (ctx : Context) (c : retry_go.RetryConfig) (operationName : string)
    (operationFn : operation T) (v : T) (err : option error) (w : world) :
  retry_go.WithRetry zero backoff ctx c operationName operationFn =
    Some ((v, err), w) ->
  (operationFn ctx (calls w) = (v, None) /\ err = None) \/
  (exists e,
      operationFn ctx (calls w) = (v, Some e) /\ err = Err ctx /\
      Z.of_nat (calls w) < retry_go.MaxAttempts (retry_go.setDefaults c) /\
      Done ctx (Z.of_nat (calls w))
        (backoff (Z.of_nat (calls w))
           (retry_go.MinDelay (retry_go.setDefaults c))
           (retry_go.MaxDelay (retry_go.setDefaults c))) = true) \/
  (exists e,
      operationFn ctx (calls w) = (v, Some e) /\
      err = Some (ptr_RetryError operationName (Z.of_nat (calls w)) (Some e))).
Proof.
  intro H. rewrite retry_go_WithRetry_eq in H.
  apply WithRetry_course in H.
  destruct H as (_ & H2 & H3 & _ & H5 & _).
  rewrite retry_go_setDefaults in H2, H3, H5.
  unfold exitOf in H5. unfold stopsAt in H3.
  cbn [retryEverything MaxAttempts MinDelay MaxDelay nonRetriable ShouldRetry
         negb orb] in H2, H3, H5.
  destruct (operationFn ctx (calls w)) as [x [e|]]; cbn [snd] in H3.
  - destruct (Z.eqb_spec (Z.of_nat (calls w))
                (retry_go.MaxAttempts (retry_go.setDefaults c))) as [Hm|Hm];
      cbn [orb] in H3; injection H5 as -> ->.
    + right; right. exists e. rewrite Hm. split; reflexivity.
    + right; left. exists e. repeat split; [lia | exact H3].
  - injection H5 as -> ->. left. split; reflexivity.
Qed.

Lemma retry_go_Attempts_counts_calls_witness :
  let op := alwaysFails 0 (ptr_HTTPError (mkHTTPError 404 "Not Found")) in
  let c := retry_go.mkRetryConfig 0 0 0 None in
  let w := mkWorld 3 [] in
  let err := Some (ptr_RetryError "fetch" 3
                     (Some (ptr_HTTPError (mkHTTPError 404 "Not Found")))) in
  (op Background (calls w) = (0, None) /\ err = None) \/
  (exists e,
      op Background (calls w) = (0, Some e) /\ err = Err Background /\
      Z.of_nat (calls w) < retry_go.MaxAttempts (retry_go.setDefaults c) /\
      Done Background (Z.of_nat (calls w))
        (doublingBackoff (Z.of_nat (calls w))
           (retry_go.MinDelay (retry_go.setDefaults c))
           (retry_go.MaxDelay (retry_go.setDefaults c))) = true) \/
  (exists e,
      op Background (calls w) = (0, Some e) /\
      err = Some (ptr_RetryError "fetch" (Z.of_nat (calls w)) (Some e))).
Proof.
  apply (retry_go_Attempts_counts_calls 0 doublingBackoff Background
           (retry_go.mkRetryConfig 0 0 0 None) "fetch"
           (alwaysFails 0 (ptr_HTTPError (mkHTTPError 404 "Not Found")))).
  reflexivity.
Defined.

(** X22.  [retry.go] retries every error: with a budget of [n >= 1], an
    operation that fails on all [n] attempts, with whatever errors, and no
    wait interrupted, is called exactly [n] times and a [RetryError] with
    [Attempts] [n] around the last error is returned. *)
Theorem retry_go_retries_every_error {T : Type} (zero : T)
    (backoff : Z -> time.Duration -> time.Duration -> time.Duration)
    (ctx : Context) (c : retry_go.RetryConfig) (operationName : string)
    (operationFn : operation T) (n : nat) :
  (1 <= n)%nat ->
  retry_go.MaxAttempts c = Z.of_nat n ->
  (forall i, (1 <= i <= n)%nat ->
     exists x e, operationFn ctx i = (x, Some e)) ->
  (forall i d, (1 <= i < n)%nat -> Done ctx (Z.of_nat i) d = false) ->
  exists v e w,
    operationFn ctx n = (v, Some e) /\
    retry_go.WithRetry zero backoff ctx c operationName operationFn =
      Some ((v, Some (ptr_RetryError operationName (Z.of_nat n) (Some e))), w)
    /\ calls w = n.
Proof.
  intros Hn HM Hfail Hwait.
  assert (HM' : MaxAttempts (setDefaults (retryEverything c)) = Z.of_nat n).
  { rewrite MaxAttempts_setDefaults_keep; cbn [retryEverything MaxAttempts];
      lia. }
  destruct (Hfail n ltac:(lia)) as (v & e & Hv).
  exists v, e.
  destruct (WithRetry_stops_at T zero backoff ctx (retryEverything c)
              operationName operationFn n) as (w & Hw & Hc & _).
  - exact Hn.
  - rewrite (stopsAt_failure _ _ _ _ _ _ _ Hv), HM', Z.eqb_refl.
    rewrite orb_true_r. reflexivity.
  - intros i Hi. apply stops_false_iff.
    destruct (Hfail i ltac:(lia)) as (x & e' & Hx).
    exists x, e'.
    split; [exact Hx|]. split; [reflexivity|].
    split; [rewrite HM'; lia | apply Hwait; lia].
  - exists w. split; [exact Hv|]. split; [|exact Hc].
    rewrite retry_go_WithRetry_eq, Hw. unfold exitOf.
    rewrite Hv, HM', Z.eqb_refl, orb_true_r. reflexivity.
Qed.

Lemma retry_go_retries_every_error_witness :
  exists v e w,
    alwaysFails 0 (ptr_HTTPError (mkHTTPError 404 "Not Found"))
      Background 3%nat = (v, Some e) /\
    retry_go.WithRetry 0 doublingBackoff Background
      (retry_go.mkRetryConfig 3 0 0 None) "fetch"
      (alwaysFails 0 (ptr_HTTPError (mkHTTPError 404 "Not Found"))) =
      Some ((v, Some (ptr_RetryError "fetch" (Z.of_nat 3) (Some e))), w)
    /\ calls w = 3%nat.
Proof.
  apply (retry_go_retries_every_error 0 doublingBackoff Background
           (retry_go.mkRetryConfig 3 0 0 None) "fetch"
           (alwaysFails 0 (ptr_HTTPError (mkHTTPError 404 "Not Found"))) 3).
  - lia.
  - reflexivity.
  - intros i _. exists 0, (ptr_HTTPError (mkHTTPError 404 "Not Found")).
    reflexivity.
  - intros i d _. reflexivity.
Defined.
